(** * Hyperparameter sweep for image similarity: the notebook
      [scenarios/similarity/11_exploring_hyperparameters.ipynb]

    The notebook is glue code.  Its own logic is the metric function
    [retrieval_rank], the parameter cell, and the order in which the cells
    call their collaborators (the parameter sweeper, the dataset helper, the
    feature extractor, the ranking helpers, pandas, scrapbook).

    The collaborators are an interface ([Collaborators]); every call made
    to one of them is recorded in an event log, so that statements about
    "what is called, with what, in which order" are statements about the
    log.  Exceptions are explicit: a computation returns [Ok v] or
    [Raise e]. *)

From Stdlib Require Import String DecimalString.
From Stdlib Require Import List ZArith QArith Bool Lia Arith.
From Stdlib Require Import Permutation Sorted.
Import ListNotations.
Close Scope Q_scope.
Open Scope string_scope.
Open Scope list_scope.

Set Implicit Arguments.

(* ------------------------------------------------------------------ *)
(** ** Python values *)

(** The exceptions that occur in the notebook and in its recorded output. *)
Inductive exn : Type :=
| AssertionError
| IndexError
| KeyError (key : string)
| AttributeError (name : string)
| ValueError (message : string)
| KeyboardInterrupt
| LibraryError (what : string).

Inductive result (A : Type) : Type :=
| Ok (a : A)
| Raise (e : exn).
Arguments Ok {A} a.
Arguments Raise {A} e.

(** A float as numpy and pandas hand it out: not-a-number, or a finite
    value.  Finite values are kept as exact rationals; the ranks are small
    integers, whose halves a double represents exactly. *)
Inductive npfloat : Type :=
| NaN
| Fin (q : Q).

(** [l[i]] with Python's negative indices; [None] stands for IndexError. *)
Definition py_getitem {A} (l : list A) (i : Z) : option A :=
  let n := Z.of_nat (length l) in
  let j := if (i <? 0)%Z then (i + n)%Z else i in
  if ((0 <=? j) && (j <? n))%Z then nth_error l (Z.to_nat j) else None.

(* ------------------------------------------------------------------ *)
(** ** numpy: the median of a list of integers *)

Module np.

Fixpoint insert (x : Z) (l : list Z) : list Z :=
  match l with
  | [] => [x]
  | y :: r => if (x <=? y)%Z then x :: l else y :: insert x r
  end.

Fixpoint sort (l : list Z) : list Z :=
  match l with
  | [] => []
  | x :: r => insert x (sort r)
  end.

(** [np.median(a)]: the mean of the middle element (odd size) or of the
    two middle elements (even size) of the sorted data; nan on no data. *)
Definition median (a : list Z) : npfloat :=
  let s := sort a in
  let sz := length s in
  match sz with
  | O => NaN
  | _ =>
      let szh := sz / 2 in
      if Nat.even sz
      then Fin ((nth (szh - 1) s 0 + nth szh s 0)%Z # 2)
      else Fin (inject_Z (nth szh s 0%Z))
  end.

End np.

(* ------------------------------------------------------------------ *)
(** ** Hyperparameters *)

(** A hyperparameter value: the notebook uses floats and ints, the
    sweeper's defaults also booleans and enumeration members. *)
Inductive pvalue : Type :=
| PFloat (q : Q)
| PInt (z : Z)
| PBool (b : bool)
| PEnum (member : string).

(** [sweeper.parameters]: an OrderedDict from parameter name to the list
    of values to try. *)
Definition params : Type := list (string * list pvalue).

(** One point of the grid: a value for every parameter. *)
Definition permutation : Type := list (string * pvalue).

Definition Q_eqb (a b : Q) : bool :=
  (Qnum a =? Qnum b)%Z && (Qden a =? Qden b)%positive.

Definition pvalue_eqb (a b : pvalue) : bool :=
  match a, b with
  | PFloat x, PFloat y => Q_eqb x y
  | PInt x, PInt y => (x =? y)%Z
  | PBool x, PBool y => Bool.eqb x y
  | PEnum x, PEnum y => String.eqb x y
  | _, _ => false
  end.

Fixpoint list_eqb {A} (eqb : A -> A -> bool) (l1 l2 : list A) : bool :=
  match l1, l2 with
  | [], [] => true
  | x :: r1, y :: r2 => eqb x y && list_eqb eqb r1 r2
  | _, _ => false
  end.

Definition permutation_eqb : permutation -> permutation -> bool :=
  list_eqb (fun a b => String.eqb (fst a) (fst b) && pvalue_eqb (snd a) (snd b)).

(* ------------------------------------------------------------------ *)
(** ** pandas: a frame with a multi-index, and the reductions used *)

(** An index label.  The sweep labels its rows with the repetition
    number, the parameter permutation and the dataset. *)
Inductive Label : Type :=
| LInt (n : nat)
| LStr (s : string)
| LPerm (p : permutation).

Definition Label_eqb (a b : Label) : bool :=
  match a, b with
  | LInt x, LInt y => Nat.eqb x y
  | LStr x, LStr y => String.eqb x y
  | LPerm x, LPerm y => permutation_eqb x y
  | _, _ => false
  end.

Record DataFrame : Type := mkDF {
  nlevels : nat;                                  (* df.index.nlevels *)
  columns : list string;                          (* df.columns *)
  rows : list (list Label * list npfloat)         (* index key, values *)
}.

Record Series : Type := mkSeries {
  s_nlevels : nat;
  s_rows : list (list Label * npfloat)
}.

Module pd.

Definition finite_values (l : list npfloat) : list Q :=
  flat_map (fun v => match v with Fin q => [q] | NaN => [] end) l.

(** Reductions skip nan (skipna=True); no value at all gives nan. *)
Definition nanmean (l : list npfloat) : npfloat :=
  match finite_values l with
  | [] => NaN
  | q :: qs =>
      Fin (Qred (fold_left Qplus qs q / inject_Z (Z.of_nat (S (length qs))))%Q)
  end.

Definition nanmax (l : list npfloat) : npfloat :=
  match finite_values l with
  | [] => NaN
  | q :: qs => Fin (fold_left (fun m x => if Qle_bool m x then x else m) qs q)
  end.

Definition nanmin (l : list npfloat) : npfloat :=
  match finite_values l with
  | [] => NaN
  | q :: qs => Fin (fold_left (fun m x => if Qle_bool x m then x else m) qs q)
  end.

(** The part of an index key at the given levels. *)
Definition project (levels : list nat) (key : list Label) : list Label :=
  map (fun l => nth l key (LInt 0)) levels.

Definition key_eqb : list Label -> list Label -> bool := list_eqb Label_eqb.

(** The group labels, each once, in order of first appearance. *)
Fixpoint distinct (ks : list (list Label)) : list (list Label) :=
  match ks with
  | [] => []
  | k :: r => k :: filter (fun k' => negb (key_eqb k k')) (distinct r)
  end.

Definition column (j : nat) (vals : list (list npfloat)) : list npfloat :=
  map (fun r => nth j r NaN) vals.

Definition reduce_columns (f : list npfloat -> npfloat) (ncols : nat)
    (vals : list (list npfloat)) : list npfloat :=
  map (fun j => f (column j vals)) (seq 0 ncols).

(** The frame of the group averages: the rows grouped by the given index
    levels, every column averaged within each group. *)
Definition grouped_mean (levels : list nat) (df : DataFrame) : DataFrame :=
  let keyed := map (fun r => (project levels (fst r), snd r)) (rows df) in
  let members g :=
    map snd (filter (fun r => key_eqb g (fst r)) keyed) in
  mkDF (length levels) (columns df)
       (map (fun g =>
               (g, reduce_columns nanmean (length (columns df)) (members g)))
            (distinct (map fst keyed))).

(** [df.mean(level=levels)]; a single level number stands for the list of
    that one level.  An index of two or more levels is a MultiIndex: a
    level number it does not have is an IndexError ("Too many levels").
    An index of one level is a plain Index: several levels are a
    ValueError, and so is one level other than 0.  No level at all is a
    ValueError (on a MultiIndex without rows, an empty frame). *)
Definition mean (levels : list nat) (df : DataFrame) : result DataFrame :=
  if Nat.leb 2 (nlevels df) then
    match levels with
    | [] =>
        match rows df with
        | [] => Ok (mkDF 1 (columns df) [])
        | _ :: _ => Raise (ValueError "No group keys passed!")
        end
    | _ :: _ =>
        if forallb (fun l => Nat.ltb l (nlevels df)) levels
        then Ok (grouped_mean levels df)
        else Raise IndexError
    end
  else
    match levels with
    | [] => Raise (ValueError "No group keys passed!")
    | [l] =>
        if Nat.eqb l 0 then Ok (grouped_mean [0] df)
        else Raise (ValueError
                      "level > 0 or level < -1 only valid with MultiIndex")
    | _ :: _ :: _ =>
        Raise (ValueError "multiple levels only valid with MultiIndex")
    end.

Fixpoint index_of (c : string) (cols : list string) : option nat :=
  match cols with
  | [] => None
  | c' :: r => if String.eqb c' c then Some 0
               else option_map S (index_of c r)
  end.

(** [df[c]]: one column as a series; KeyError when there is none. *)
Definition getitem (df : DataFrame) (c : string) : result Series :=
  match index_of c (columns df) with
  | Some j =>
      Ok (mkSeries (nlevels df)
            (map (fun r => (fst r, nth j (snd r) NaN)) (rows df)))
  | None => Raise (KeyError c)
  end.

(** [df.max()] and [df.min()]: one value per column, labelled by the
    column name. *)
Definition max (df : DataFrame) : list (string * npfloat) :=
  combine (columns df)
          (reduce_columns nanmax (length (columns df)) (map snd (rows df))).

Definition min (df : DataFrame) : list (string * npfloat) :=
  combine (columns df)
          (reduce_columns nanmin (length (columns df)) (map snd (rows df))).

(** Attribute access on the reduced series, as in [df.max().duration]. *)
Fixpoint getattr (s : list (string * npfloat)) (a : string) : result npfloat :=
  match s with
  | [] => Raise (AttributeError a)
  | (c, v) :: r => if String.eqb c a then Ok v else getattr r a
  end.

Definition len (df : DataFrame) : nat := length (rows df).

Definition to_list (s : Series) : list npfloat := map snd (s_rows s).

End pd.

(* ------------------------------------------------------------------ *)
(** ** The collaborators *)

(** [valid_features]: a dict from image path to feature vector, in
    insertion order. *)
Definition Features : Type := list (string * list Q).

(** [d.values()] *)
Definition values {K V} (d : list (K * V)) : list V := map snd d.

(** fastai's [DatasetType]. *)
Inductive DatasetType : Type := Train | Valid | Test | Single | Fix.

(** What the notebook hands to [sb.glue]. *)
Inductive GlueValue : Type :=
| GInt (n : nat)
| GFloat (x : npfloat)
| GList (l : list npfloat).

(** Everything the notebook imports and does not define.  A collaborator
    acts on the state of the libraries ([ExtState]: random generator,
    device, files, the objects they allocate) and returns a value or
    raises.  [ComparativeSet] is a reference to an object that
    [compute_distances] updates in place, inside [ExtState]. *)
Class Collaborators : Type := {
  ExtState : Type;
  Dataset : Type;
  DataBunch : Type;
  Layer : Type;
  Learner : Type;
  ComparativeSet : Type;
  (* attributes read by the notebook *)
  learn_data : Learner -> DataBunch;              (* learn.data *)
  learn_model : Learner -> list (list Layer);     (* learn.model *)
  valid_ds : DataBunch -> Dataset;                (* data.valid_ds *)
  Urls_fridge_objects_path : string;
  Urls_fridge_objects_watermark_path : string;
  (* utils_cv.common.data.unzip_url(url, exist_ok) *)
  ext_unzip_url : string -> bool -> ExtState -> result string * ExtState;
  (* utils_cv.similarity.data.comparative_set_builder *)
  ext_comparative_set_builder :
    Dataset -> nat -> nat -> ExtState -> result (list ComparativeSet) * ExtState;
  (* utils_cv.similarity.model.compute_features_learner *)
  ext_compute_features_learner :
    DataBunch -> DatasetType -> Learner -> Layer ->
    ExtState -> result Features * ExtState;
  (* ComparativeSet.compute_distances *)
  ext_compute_distances :
    ComparativeSet -> Features -> ExtState -> result unit * ExtState;
  (* utils_cv.similarity.metrics.positive_image_ranks *)
  ext_positive_image_ranks :
    list ComparativeSet -> ExtState -> result (list Z) * ExtState;
  (* the sweeper's training of one model: the learner and the duration *)
  ext_learn :
    string -> permutation -> ExtState -> result (Learner * npfloat) * ExtState;
  (* utils_cv.classification.parameter_sweeper.clean_sweeper_df *)
  ext_clean_sweeper_df : DataFrame -> ExtState -> result DataFrame * ExtState;
  (* Series.unstack().plot(kind='bar', figsize=(12, 6)) *)
  ext_plot_bar : Series -> ExtState -> result unit * ExtState;
  (* utils_cv.classification.parameter_sweeper.plot_sweeper_df *)
  ext_plot_sweeper_df : DataFrame -> string -> ExtState -> result unit * ExtState;
  (* scrapbook.glue *)
  ext_glue : string -> GlueValue -> ExtState -> result unit * ExtState
}.

(* ------------------------------------------------------------------ *)
(** ** Effects: the event log and exceptions *)

Section Effects.
Context {C : Collaborators}.

(** One event per call to a collaborator, written when the call is made;
    [EvRaised] is written when an exception is raised. *)
Inductive Event : Type :=
| EvUnzipUrl (url : string) (exist_ok : bool)
| EvComparativeSetBuilder (ds : Dataset) (num_sets num_negatives : nat)
| EvComputeFeaturesLearner (data : DataBunch) (dt : DatasetType)
                           (learn : Learner) (layer : Layer)
| EvComputeDistances (cs : ComparativeSet) (features : Features)
| EvPositiveImageRanks (sets : list ComparativeSet)
| EvUpdateParameters (kwargs : params)
| EvPrint (line : string)
| EvLearn (dataset : string) (perm : permutation)
| EvMetricFct (learn : Learner)
| EvCleanSweeperDf (df : DataFrame)
| EvPlotBar (s : Series)
| EvPlotSweeperDf (df : DataFrame) (sort_by : string)
| EvGlue (name : string) (value : GlueValue)
| EvRaised (e : exn).

Record World : Type := mkWorld {
  events : list Event;
  ext : ExtState
}.

Definition M (A : Type) : Type := World -> result A * World.

Definition ret {A} (a : A) : M A := fun w => (Ok a, w).

Definition bind {A B} (m : M A) (k : A -> M B) : M B :=
  fun w =>
    match m w with
    | (Ok a, w') => k a w'
    | (Raise e, w') => (Raise e, w')
    end.

Definition log (ev : Event) : M unit :=
  fun w => (Ok tt, mkWorld (events w ++ [ev]) (ext w)).

Definition raise {A} (e : exn) : M A :=
  fun w => (Raise e, mkWorld (events w ++ [EvRaised e]) (ext w)).

(** A call to a collaborator. *)
Definition call {A} (ev : Event) (impl : ExtState -> result A * ExtState) : M A :=
  fun w =>
    match impl (ext w) with
    | (Ok a, s) => (Ok a, mkWorld (events w ++ [ev]) s)
    | (Raise e, s) => (Raise e, mkWorld (events w ++ [ev; EvRaised e]) s)
    end.

(** Indexing that raises IndexError. *)
Definition index {A} (o : option A) : M A :=
  match o with
  | Some a => ret a
  | None => raise IndexError
  end.

(** A pure library operation that may raise. *)
Definition lift {A} (r : result A) : M A :=
  match r with
  | Ok a => ret a
  | Raise e => raise e
  end.

(** The [assert] statement. *)
Definition assert (b : bool) : M unit :=
  if b then ret tt else raise AssertionError.

End Effects.

Declare Scope monad_scope.
Delimit Scope monad_scope with monad.
Notation "x <- c ;; k" := (bind c (fun x => k))
  (at level 61, c at next level, right associativity) : monad_scope.
Notation "c ;; k" := (bind c (fun _ => k))
  (at level 61, right associativity) : monad_scope.
Open Scope monad_scope.

Section Loops.
Context {C : Collaborators}.

(** [for x in xs: body(x)] *)
Fixpoint for_each {A} (xs : list A) (body : A -> M unit) : M unit :=
  match xs with
  | [] => ret tt
  | x :: r => body x ;; for_each r body
  end.

(** A loop that collects one value per iteration. *)
Fixpoint for_list {A B} (xs : list A) (body : A -> M B) : M (list B) :=
  match xs with
  | [] => ret []
  | x :: r => y <- body x ;; ys <- for_list r body ;; ret (y :: ys)
  end.

End Loops.

(* ------------------------------------------------------------------ *)
(** ** Cell 4: the similarity accuracy metric *)

Section Metric.
Context {C : Collaborators}.

Definition comparative_set_builder (ds : Dataset) (num_sets num_negatives : nat)
  : M (list ComparativeSet) :=
  call (EvComparativeSetBuilder ds num_sets num_negatives)
       (ext_comparative_set_builder ds num_sets num_negatives).

Definition compute_features_learner (data : DataBunch) (dt : DatasetType)
    (learn : Learner) (layer : Layer) : M Features :=
  call (EvComputeFeaturesLearner data dt learn layer)
       (ext_compute_features_learner data dt learn layer).

Definition compute_distances (cs : ComparativeSet) (features : Features) : M unit :=
  call (EvComputeDistances cs features) (ext_compute_distances cs features).

Definition positive_image_ranks (sets : list ComparativeSet) : M (list Z) :=
  call (EvPositiveImageRanks sets) (ext_positive_image_ranks sets).

(** [learn.model[1][-2]] *)
Definition penultimate_layer (learn : Learner) : option Layer :=
  match py_getitem (learn_model learn) 1 with
  | Some head => py_getitem head (-2)
  | None => None
  end.

Definition retrieval_rank (learn : Learner) : M npfloat :=
  let data := learn_data learn in
  (* Build multiple sets of comparative images from the validation images *)
  comparative_sets <- comparative_set_builder (valid_ds data) 1000 99 ;;
  (* Use penultimate layer as image representation *)
  embedding_layer <- index (penultimate_layer learn) ;;
  (* Compute DNN features for all validation images *)
  valid_features <- compute_features_learner data Valid learn embedding_layer ;;
  first <- index (py_getitem (values valid_features) 0) ;;
  assert (length first =? 512)%nat ;;
  (* For each comparative set compute the distances between the query
     image and all reference images *)
  for_each comparative_sets (fun cs => compute_distances cs valid_features) ;;
  (* Compute the median rank of the positive example over all comparative
     sets *)
  ranks <- positive_image_ranks comparative_sets ;;
  let median_rank := np.median ranks in
  ret median_rank.

End Metric.

(* ------------------------------------------------------------------ *)
(** ** The parameter sweeper *)

Record ParameterSweeper : Type := mkSweeper {
  metric_name : string;
  parameters : params
}.

(** The sweeper's default parameters, as cell 5 shows them. *)
Definition default_parameters : params :=
  [ ("learning_rate", [PFloat (1 # 10000)]);
    ("epochs", [PInt 15]);
    ("batch_size", [PInt 16]);
    ("im_size", [PInt 299]);
    ("architecture", [PEnum "resnet18"]);
    ("transform", [PBool true]);
    ("dropout", [PFloat (1 # 2)]);
    ("weight_decay", [PFloat (1 # 100)]);
    ("training_schedule", [PEnum "head_first_then_body"]);
    ("discriminative_lr", [PBool false]);
    ("one_cycle_policy", [PBool true]) ].

(** [ParameterSweeper(metric_name=...)] *)
Definition ParameterSweeper_init (name : string) : ParameterSweeper :=
  mkSweeper name default_parameters.

(** [d[k] = v] on an ordered dict. *)
Fixpoint dict_set (d : params) (k : string) (v : list pvalue) : params :=
  match d with
  | [] => [(k, v)]
  | (k', v') :: r =>
      if String.eqb k' k then (k', v) :: r else (k', v') :: dict_set r k v
  end.

(** Modelled from the spec: [ParameterSweeper.update_parameters] is not in
    the notebook; the spec has it "build parameter grid" from the lists
    the caller gives.  The lists given replace the sweeper's own. *)
Definition updated (sw : ParameterSweeper) (kwargs : params) : ParameterSweeper :=
  mkSweeper (metric_name sw)
            (fold_left (fun d kv => dict_set d (fst kv) (snd kv))
                       kwargs (parameters sw)).

(** Modelled from the spec: the "parameter grid" is not computed in the
    notebook; it is every combination of one value per parameter. *)
Fixpoint grid (ps : params) : list permutation :=
  match ps with
  | [] => [[]]
  | (k, vs) :: r => flat_map (fun v => map (cons (k, v)) (grid r)) vs
  end.

(** [sweeper.permutations] *)
Definition permutations (sw : ParameterSweeper) : list permutation :=
  grid (parameters sw).

Definition string_of_nat (n : nat) : string :=
  NilEmpty.string_of_uint (Nat.to_uint n).

(** The progress line of the sweep; its wording is the line cell 6
    recorded, with the four numbers left open. *)
Definition progress_line (i n rep reps : nat) : string :=
  ("Running " ++ string_of_nat (i + 1) ++ " of " ++ string_of_nat n
   ++ " permutations. Repeat " ++ string_of_nat (rep + 1) ++ " of "
   ++ string_of_nat reps ++ ".")%string.

(** Modelled from the spec: the key under which [ParameterSweeper.run]
    (not in the notebook) files one result; the table is "keyed by
    (repetition, parameter-permutation, dataset)". *)
Definition result_key (rep : nat) (perm : permutation) (dataset : string)
  : list Label :=
  [LInt rep; LPerm perm; LStr dataset].

Section Sweeper.
Context {C : Collaborators}.

(** Modelled from the spec: [ParameterSweeper.update_parameters], not in
    the notebook, is the step "build parameter grid"; the call is logged
    and the sweeper has the caller's lists from then on. *)
Definition update_parameters (sw : ParameterSweeper) (kwargs : params)
  : M ParameterSweeper :=
  log (EvUpdateParameters kwargs) ;;
  ret (updated sw kwargs).

(** Modelled from the spec: [ParameterSweeper.run] is not in the notebook.
    The spec: "for each parameter combination and repetition, train a
    model and evaluate it with a caller-supplied metric function",
    "collect results into a table" that is "keyed by (repetition,
    parameter-permutation, dataset) producing scalar metrics (rank,
    duration, etc.)".  No exception is handled ("None beyond what the
    external training framework raises").  The progress line printed
    for each permutation is the one cell 6 recorded. *)
Definition ParameterSweeper_run (sw : ParameterSweeper) (datasets : list string)
    (reps : nat) (metric_fct : Learner -> M npfloat) : M DataFrame :=
  let perms := permutations sw in
  res <-
    for_list (seq 0 reps) (fun rep =>
      for_list (combine (seq 0 (length perms)) perms) (fun ip =>
        let (i, perm) := (ip : nat * permutation) in
        log (EvPrint (progress_line i (length perms) rep reps)) ;;
        for_list datasets (fun dataset =>
          trained <- call (EvLearn dataset perm) (ext_learn dataset perm) ;;
          let (learn, duration) := (trained : Learner * npfloat) in
          log (EvMetricFct learn) ;;
          metric <- metric_fct learn ;;
          ret (result_key rep perm dataset, [metric; duration])))) ;;
  ret (mkDF 3 [metric_name sw; "duration"] (concat (concat res))).

End Sweeper.

(* ------------------------------------------------------------------ *)
(** ** The notebook, cell by cell *)

(** Cell 3 (parameters). *)
Definition REPS : nat := 3.
Definition LEARNING_RATES : list Q := [1 # 1000; 1 # 10000; 1 # 100000]%Q.
Definition IM_SIZES : list Z := [300; 500]%Z.
Definition EPOCHS : list Z := [16]%Z.
Definition DROPOUTS : list Z := [0]%Z.

(** The keyword arguments of [sweeper.update_parameters] in cell 6. *)
Definition cell_6_kwargs : params :=
  [ ("learning_rate", map PFloat LEARNING_RATES);
    ("im_size", map PInt IM_SIZES);
    ("epochs", map PInt EPOCHS);
    ("dropout", map PInt DROPOUTS) ].

(** What cell 6 recorded when it was last run: one line on stdout and the
    name of the error that ended the cell. *)
Definition cell_6_recorded_stdout : string :=
  "Running 1 of 6 permutations. Repeat 1 of 3.".
Definition cell_6_recorded_ename : string := "KeyboardInterrupt".

Definition exn_name (e : exn) : string :=
  match e with
  | AssertionError => "AssertionError"
  | IndexError => "IndexError"
  | KeyError _ => "KeyError"
  | AttributeError _ => "AttributeError"
  | ValueError _ => "ValueError"
  | KeyboardInterrupt => "KeyboardInterrupt"
  | LibraryError what => what
  end.

Section Cells.
Context {C : Collaborators}.

Definition unzip_url (url : string) (exist_ok : bool) : M string :=
  call (EvUnzipUrl url exist_ok) (ext_unzip_url url exist_ok).

Definition clean_sweeper_df (df : DataFrame) : M DataFrame :=
  call (EvCleanSweeperDf df) (ext_clean_sweeper_df df).

Definition plot_bar (s : Series) : M unit :=
  call (EvPlotBar s) (ext_plot_bar s).

Definition plot_sweeper_df (df : DataFrame) (sort_by : string) : M unit :=
  call (EvPlotSweeperDf df sort_by) (ext_plot_sweeper_df df sort_by).

Definition glue (name : string) (v : GlueValue) : M unit :=
  call (EvGlue name v) (ext_glue name v).

(** Cell 3: [DATA_PATHS]. *)
Definition cell_3 : M (list string) :=
  p1 <- unzip_url Urls_fridge_objects_path true ;;
  p2 <- unzip_url Urls_fridge_objects_watermark_path true ;;
  ret [p1; p2].

(** Cell 5: [sweeper]. *)
Definition cell_5 : M ParameterSweeper :=
  ret (ParameterSweeper_init "rank").

(** Cell 6, for any implementation [run] of [sweeper.run]. *)
Definition cell_6_with
    (run : ParameterSweeper -> list string -> nat ->
           (Learner -> M npfloat) -> M DataFrame)
    (sweeper : ParameterSweeper) (DATA_PATHS : list string) : M DataFrame :=
  sweeper <- update_parameters sweeper cell_6_kwargs ;;
  df <- run sweeper DATA_PATHS REPS retrieval_rank ;;
  ret df.

Definition cell_6 : ParameterSweeper -> list string -> M DataFrame :=
  cell_6_with ParameterSweeper_run.

(** Cell 7. *)
Definition cell_7 (df : DataFrame) : M DataFrame :=
  clean_sweeper_df df.

(** Cell 8: [df.mean(level=(1,2)).T], shown transposed. *)
Definition cell_8 (df : DataFrame) : M DataFrame :=
  lift (pd.mean [1; 2] df).

(** Cell 9. *)
Definition cell_9 (df : DataFrame) : M unit :=
  m <- lift (pd.mean [1; 2] df) ;;
  s <- lift (pd.getitem m "rank") ;;
  plot_bar s.

(** Cell 10: [df.mean(level=(1)).T], shown transposed. *)
Definition cell_10 (df : DataFrame) : M DataFrame :=
  lift (pd.mean [1] df).

(** Cell 11. *)
Definition cell_11 (df : DataFrame) : M unit :=
  m <- lift (pd.mean [1] df) ;;
  plot_sweeper_df m "rank".

(** Cell 12: preserve some of the notebook outputs. *)
Definition cell_12 (df : DataFrame) : M unit :=
  glue "nr_elements" (GInt (pd.len df)) ;;
  m <- lift (pd.mean [1] df) ;;
  s <- lift (pd.getitem m "rank") ;;
  glue "ranks" (GList (pd.to_list s)) ;;
  mx <- lift (pd.getattr (pd.max df) "duration") ;;
  glue "max_duration" (GFloat mx) ;;
  mn <- lift (pd.getattr (pd.min df) "duration") ;;
  glue "min_duration" (GFloat mn).

(** The cells after the sweep. *)
Definition post_process (df : DataFrame) : M unit :=
  df <- cell_7 df ;;
  cell_8 df ;;
  cell_9 df ;;
  cell_10 df ;;
  cell_11 df ;;
  cell_12 df.

(** The whole notebook, top to bottom, for any implementation [run] of
    [sweeper.run]. *)
Definition notebook_with
    (run : ParameterSweeper -> list string -> nat ->
           (Learner -> M npfloat) -> M DataFrame) : M unit :=
  DATA_PATHS <- cell_3 ;;
  sweeper <- cell_5 ;;
  df <- cell_6_with run sweeper DATA_PATHS ;;
  post_process df.

Definition notebook : M unit := notebook_with ParameterSweeper_run.

End Cells.

(* ------------------------------------------------------------------ *)
(** ** A small concrete set of collaborators, to run the notebook on *)

Module Demo.

(** A learner: its validation images, its layers, and the size of the
    feature vectors its embedding layer produces. *)
Record learner : Type := mkLearner {
  images : list string;
  layers : list (list nat);
  dim : nat
}.

(** Comparative sets are numbered; the state counts the calls made. *)
Definition build_sets (ds : list string) (num_sets num_negatives : nat) (s : nat)
  : result (list nat) * nat :=
  (Ok (map (fun i => s + i) (seq 0 (Nat.min num_sets 3))), S s).

(** The first image gets a vector of the learner's size, the others one
    of 7 entries. *)
Definition features (data : list string) (dt : DatasetType) (l : learner)
    (layer : nat) (s : nat) : result Features * nat :=
  (Ok match data with
      | [] => []
      | im :: others =>
          (im, repeat (0 # 1)%Q (dim l)) ::
          map (fun im' => (im', repeat (0 # 1)%Q 7)) others
      end,
   S s).

Definition ranks (sets : list nat) (s : nat) : result (list Z) * nat :=
  (Ok (map (fun cs => Z.of_nat (S ((7 * cs) mod 5))) sets), S s).

(** Training returns a learner with embeddings of size [d]; with
    [interrupt] the user stops the training. *)
Definition train (interrupt : bool) (d : nat) (dataset : string)
    (perm : permutation) (s : nat) : result (learner * npfloat) * nat :=
  if interrupt then (Raise KeyboardInterrupt, s)
  else (Ok (mkLearner [dataset; "query.jpg"] [[0]; [1; 2; 3]] d,
            Fin (Z.of_nat s # 1)), S s).

Definition collaborators (interrupt : bool) (d : nat) : Collaborators := {|
  ExtState := nat;
  Dataset := list string;
  DataBunch := list string;
  Layer := nat;
  Learner := learner;
  ComparativeSet := nat;
  learn_data := images;
  learn_model := layers;
  valid_ds := fun data => data;
  Urls_fridge_objects_path := "fridgeObjects.zip";
  Urls_fridge_objects_watermark_path := "fridgeObjectsWatermark.zip";
  ext_unzip_url := fun url _ s => (Ok ("data/" ++ url)%string, S s);
  ext_comparative_set_builder := build_sets;
  ext_compute_features_learner := features;
  ext_compute_distances := fun _ _ s => (Ok tt, S s);
  ext_positive_image_ranks := ranks;
  ext_learn := train interrupt d;
  ext_clean_sweeper_df := fun df s => (Ok df, s);
  ext_plot_bar := fun _ s => (Ok tt, s);
  ext_plot_sweeper_df := fun _ _ s => (Ok tt, s);
  ext_glue := fun _ _ s => (Ok tt, s)
|}.

(** The collaborators all work, embeddings have 512 entries. *)
Definition working : Collaborators := collaborators false 512.

(** The same, with embeddings of 3 entries. *)
Definition narrow : Collaborators := collaborators false 3.

(** The user interrupts the first training. *)
Definition interrupted : Collaborators := collaborators true 512.

Definition a_learner (d : nat) : learner :=
  mkLearner ["a.jpg"; "b.jpg"] [[0]; [1; 2; 3]] d.

(** The world before the first cell. *)
Definition start (C : Collaborators) (s : @ExtState C) : @World C :=
  mkWorld [] s.

End Demo.

(* ------------------------------------------------------------------ *)
(** ** Vocabulary of the statements *)

Section Vocabulary.
Context {C : Collaborators}.

(** [traces m Q]: from any world, [m] appends some events [tr] to the log,
    and [Q] holds of its outcome and [tr]. *)
Definition traces {A} (m : M A) (Q : result A -> list Event -> Prop) : Prop :=
  forall w, exists tr,
    events (snd (m w)) = events w ++ tr /\ Q (fst (m w)) tr.

Definition raised (ev : Event) : Prop := exists e, ev = EvRaised e.

(** No exception was swallowed: a run that returns saw none raised, a run
    that raises [e] saw exactly [e] raised, as its last event. *)
Definition unhandled {A} (r : result A) (tr : list Event) : Prop :=
  match r with
  | Ok _ => Forall (fun ev => ~ raised ev) tr
  | Raise e =>
      exists tr0, tr = tr0 ++ [EvRaised e] /\ Forall (fun ev => ~ raised ev) tr0
  end.

(** [m] swallows no exception. *)
Definition propagates {A} (m : M A) : Prop := traces m (@unhandled A).

(** Every event [m] writes satisfies [P]. *)
Definition all_events (P : Event -> Prop) {A} (m : M A) : Prop :=
  traces m (fun _ tr => Forall P tr).

(** The loop of [retrieval_rank] over the comparative sets, seen from the
    libraries' state. *)
Fixpoint distances_on_each (features : Features) (sets : list ComparativeSet)
    (s : ExtState) : result unit * ExtState :=
  match sets with
  | [] => (Ok tt, s)
  | cs :: r =>
      match ext_compute_distances cs features s with
      | (Ok _, s') => distances_on_each features r s'
      | (Raise e, s') => (Raise e, s')
      end
  end.

(** The events [retrieval_rank learn] may write after its first one. *)
Definition rank_tail_event (learn : Learner) (ev : Event) : Prop :=
  match ev with
  | EvComputeFeaturesLearner data dt l layer =>
      data = learn_data learn /\ dt = Valid /\ l = learn /\
      penultimate_layer learn = Some layer
  | EvComputeDistances _ _ => True
  | EvPositiveImageRanks _ => True
  | EvRaised _ => True
  | _ => False
  end.

(** The steps of the pipeline an event stands for. *)
Inductive Step : Type :=
| LoadDataset (url : string)
| BuildGrid (kwargs : params)
| TrainModel (dataset : string) (perm : permutation)
| EvaluateMetric
| RankMetric (num_sets num_negatives : nat)
| PrintLine (line : string)
| PostProcess (what : string).

Definition step_of (ev : Event) : list Step :=
  match ev with
  | EvUnzipUrl url _ => [LoadDataset url]
  | EvUpdateParameters kwargs => [BuildGrid kwargs]
  | EvLearn dataset perm => [TrainModel dataset perm]
  | EvMetricFct _ => [EvaluateMetric]
  | EvComparativeSetBuilder _ n k => [RankMetric n k]
  | EvCleanSweeperDf _ => [PostProcess "clean_sweeper_df"]
  | EvPlotBar _ => [PostProcess "plot"]
  | EvPlotSweeperDf _ _ => [PostProcess "plot_sweeper_df"]
  | EvGlue name _ => [PostProcess ("glue " ++ name)%string]
  | EvComputeFeaturesLearner _ _ _ _ => []
  | EvComputeDistances _ _ => []
  | EvPositiveImageRanks _ => []
  | EvPrint line => [PrintLine line]
  | EvRaised _ => []
  end.

Definition steps (tr : list Event) : list Step := flat_map step_of tr.

(** The four phases of the notebook, by the events that belong to each
    (an exception may be raised in any of them). *)
Definition loading (ev : Event) : Prop :=
  match ev with
  | EvUnzipUrl _ _ | EvRaised _ => True
  | _ => False
  end.

Definition grid_building (ev : Event) : Prop :=
  match ev with
  | EvUpdateParameters _ | EvRaised _ => True
  | _ => False
  end.

Definition sweeping (ev : Event) : Prop :=
  match ev with
  | EvPrint _ | EvLearn _ _ | EvMetricFct _
  | EvComparativeSetBuilder _ _ _ | EvComputeFeaturesLearner _ _ _ _
  | EvComputeDistances _ _ | EvPositiveImageRanks _ | EvRaised _ => True
  | _ => False
  end.

Definition post_processing (ev : Event) : Prop :=
  match ev with
  | EvCleanSweeperDf _ | EvPlotBar _ | EvPlotSweeperDf _ _ | EvGlue _ _
  | EvRaised _ => True
  | _ => False
  end.

(** When [m] returns [a], having written the events [tr], [R a tr] holds. *)
Definition returns {A} (m : M A) (R : A -> list Event -> Prop) : Prop :=
  traces m (fun r tr => forall a, r = Ok a -> R a tr).

End Vocabulary.

Definition is_load (s : Step) : bool :=
  match s with LoadDataset _ => true | _ => false end.

Definition is_training (s : Step) : bool :=
  match s with TrainModel _ _ => true | _ => false end.

Definition is_evaluation (s : Step) : bool :=
  match s with EvaluateMetric => true | _ => false end.

Definition is_rank_metric (s : Step) : bool :=
  match s with RankMetric 1000 99 => true | _ => false end.

Definition is_print (s : Step) : bool :=
  match s with PrintLine _ => true | _ => false end.

(** The steps of a sweep: for each repetition and each permutation, a
    progress line, then for each dataset: train, evaluate with the rank
    metric. *)
Definition sweep_steps (perms : list permutation) (datasets : list string)
    (reps : nat) : list Step :=
  flat_map (fun rep : nat =>
    flat_map (fun ip : nat * permutation =>
      PrintLine (progress_line (fst ip) (length perms) rep reps) ::
      flat_map (fun dataset =>
        [TrainModel dataset (snd ip); EvaluateMetric; RankMetric 1000 99])
        datasets)
      (combine (seq 0 (length perms)) perms))
    (seq 0 reps).

(** The index keys of a sweep's results. *)
Definition sweep_keys (perms : list permutation) (datasets : list string)
    (reps : nat) : list (list Label) :=
  flat_map (fun rep =>
    flat_map (fun perm => map (result_key rep perm) datasets) perms)
    (seq 0 reps).

(** The results of a sweep: three index levels (repetition, permutation,
    dataset), the metric and the duration as columns, one row per key. *)
Definition sweep_frame (metric : string) (perms : list permutation)
    (datasets : list string) (reps : nat) (df : DataFrame) : Prop :=
  nlevels df = 3 /\
  columns df = [metric; "duration"] /\
  map fst (rows df) = sweep_keys perms datasets reps /\
  Forall (fun r => length (snd r) = 2) (rows df).

(** The values of the swept parameters at one point of the grid. *)
Definition swept (perm : permutation) : list (option pvalue) :=
  map (fun k => option_map snd (find (fun kv => String.eqb (fst kv) k) perm))
      ["learning_rate"; "im_size"; "epochs"; "dropout"].

(** The steps of the cells after the sweep. *)
Definition post_steps : list Step :=
  [ PostProcess "clean_sweeper_df"; PostProcess "plot";
    PostProcess "plot_sweeper_df"; PostProcess "glue nr_elements";
    PostProcess "glue ranks"; PostProcess "glue max_duration";
    PostProcess "glue min_duration" ].

(** The grid of the notebook. *)
Definition notebook_grid : list permutation :=
  permutations (updated (ParameterSweeper_init "rank") cell_6_kwargs).



(* ------------------------------------------------------------------ *)
(** ** Contracts of the collaborators, and faulty collaborators *)

Section Contracts.
Context {C : Collaborators}.

(** A call of [compute_distances] whose feature dict has a first vector
    of 512 entries (any other event passes). *)
Definition distance_on_checked (ev : Event) : Prop :=
  match ev with
  | EvComputeDistances _ features =>
      exists first,
        py_getitem (values features) 0 = Some first /\ length first = 512
  | _ => True
  end.

(** [m] always returns, and what it returns satisfies [R]. *)
Definition ensures {A} (m : M A) (R : A -> Prop) : Prop :=
  forall w, exists a w', m w = (Ok a, w') /\ R a.

(** A learner the metric works on: it has a layer [model[1][-2]], and
    its validation features come back with a first vector of 512
    entries. *)
Definition good_learner (learn : Learner) : Prop :=
  (exists layer, penultimate_layer learn = Some layer) /\
  forall layer s, exists features first s',
    ext_compute_features_learner (learn_data learn) Valid learn layer s
      = (Ok features, s') /\
    py_getitem (values features) 0 = Some first /\
    length first = 512.

(** Collaborators that never raise: training gives good learners, and
    cleaning keeps the index levels and the columns of the frame. *)
Record reliable : Prop := {
  unzip_url_returns : forall url exist_ok s,
    exists p s', ext_unzip_url url exist_ok s = (Ok p, s');
  builder_returns : forall ds n k s,
    exists sets s', ext_comparative_set_builder ds n k s = (Ok sets, s');
  distances_return : forall cs features s,
    exists s', ext_compute_distances cs features s = (Ok tt, s');
  ranks_return : forall sets s,
    exists ranks s', ext_positive_image_ranks sets s = (Ok ranks, s');
  learn_returns : forall dataset perm s,
    exists learn duration s',
      ext_learn dataset perm s = (Ok (learn, duration), s') /\
      good_learner learn;
  clean_returns : forall df s,
    exists df' s',
      ext_clean_sweeper_df df s = (Ok df', s') /\
      nlevels df' = nlevels df /\ columns df' = columns df;
  plot_bar_returns : forall series s,
    exists s', ext_plot_bar series s = (Ok tt, s');
  plot_sweeper_df_returns : forall df sort_by s,
    exists s', ext_plot_sweeper_df df sort_by s = (Ok tt, s');
  glue_returns : forall name v s,
    exists s', ext_glue name v s = (Ok tt, s')
}.

End Contracts.

(** The points of a sweep, in the order in which they are visited. *)
Definition sweep_points (perms : list permutation) (datasets : list string)
    (reps : nat) : list (nat * permutation * string) :=
  flat_map (fun rep =>
    flat_map (fun perm => map (fun dataset => (rep, perm, dataset)) datasets)
             perms)
    (seq 0 reps).

Section Results.
Context {C : Collaborators}.

(** The row of results of one point of the sweep: its key, then the
    value [retrieval_rank] returned on the learner that the training on
    this dataset with this permutation gave, then the duration of that
    training. *)
Definition sweep_row (point : nat * permutation * string)
    (row : list Label * list npfloat) : Prop :=
  exists learn duration metric,
    row = (result_key (fst (fst point)) (snd (fst point)) (snd point),
           [metric; duration]) /\
    (exists s s',
       ext_learn (snd point) (snd (fst point)) s = (Ok (learn, duration), s')) /\
    (exists w, fst (retrieval_rank learn w) = Ok metric).

(** The events of cells 7 to 12 on the frame [df]: [clean_sweeper_df] is
    given [df]; what it returns, [df'], is what is averaged, plotted and
    glued. *)
Definition post_processed (df : DataFrame) (tr : list Event) : Prop :=
  exists df' m12 s12 m1 sr mx mn,
    tr = [ EvCleanSweeperDf df;
           EvPlotBar s12;
           EvPlotSweeperDf m1 "rank";
           EvGlue "nr_elements" (GInt (pd.len df'));
           EvGlue "ranks" (GList (pd.to_list sr));
           EvGlue "max_duration" (GFloat mx);
           EvGlue "min_duration" (GFloat mn) ] /\
    (exists s s', ext_clean_sweeper_df df s = (Ok df', s')) /\
    pd.mean [1; 2] df' = Ok m12 /\
    pd.getitem m12 "rank" = Ok s12 /\
    pd.mean [1] df' = Ok m1 /\
    pd.getitem m1 "rank" = Ok sr /\
    pd.getattr (pd.max df') "duration" = Ok mx /\
    pd.getattr (pd.min df') "duration" = Ok mn.

End Results.

Module Faulty.

(** [compute_distances] fails on the comparative set numbered [bad]. *)
Definition distances (bad : nat) (cs : nat) (features : Features) (s : nat)
  : result unit * nat :=
  if Nat.eqb cs bad then (Raise (LibraryError "RuntimeError"), s)
  else (Ok tt, S s).

(** The working collaborators of [Demo], except that the distances fail
    on one set and that cleaning changes the frame by [clean]. *)
Definition collaborators (bad : nat) (clean : DataFrame -> DataFrame)
  : Collaborators := {|
  ExtState := nat;
  Dataset := list string;
  DataBunch := list string;
  Layer := nat;
  Learner := Demo.learner;
  ComparativeSet := nat;
  learn_data := Demo.images;
  learn_model := Demo.layers;
  valid_ds := fun data => data;
  Urls_fridge_objects_path := "fridgeObjects.zip";
  Urls_fridge_objects_watermark_path := "fridgeObjectsWatermark.zip";
  ext_unzip_url := fun url _ s => (Ok ("data/" ++ url)%string, S s);
  ext_comparative_set_builder := Demo.build_sets;
  ext_compute_features_learner := Demo.features;
  ext_compute_distances := distances bad;
  ext_positive_image_ranks := Demo.ranks;
  ext_learn := Demo.train false 512;
  ext_clean_sweeper_df := fun df s => (Ok (clean df), s);
  ext_plot_bar := fun _ s => (Ok tt, s);
  ext_plot_sweeper_df := fun _ _ s => (Ok tt, s);
  ext_glue := fun _ _ s => (Ok tt, s)
|}.

(** Cleaning that renames the metric column. *)
Definition rename_metric (df : DataFrame) : DataFrame :=
  mkDF (nlevels df) ["accuracy"; "duration"] (rows df).

(** Cleaning that drops the repetition level of the index. *)
Definition drop_level (df : DataFrame) : DataFrame :=
  mkDF 2 (columns df) (map (fun r => (tl (fst r), snd r)) (rows df)).

(** Cleaning that keeps only the dataset level of the index. *)
Definition keep_dataset_level (df : DataFrame) : DataFrame :=
  mkDF 1 (columns df) (map (fun r => (tl (tl (fst r)), snd r)) (rows df)).

(** A frame of one result. *)
Definition one_row : DataFrame :=
  mkDF 3 ["rank"; "duration"]
       [([LInt 0; LPerm []; LStr "a"], [Fin (3 # 1); Fin (12 # 1)])].

(** A learner without a second child in its model, and one without
    validation images. *)
Definition headless : Demo.learner := Demo.mkLearner ["a.jpg"] [[0; 1; 2]] 512.
Definition no_images : Demo.learner := Demo.mkLearner [] [[0]; [1; 2; 3]] 512.

End Faulty.

(* ------------------------------------------------------------------ *)
(** ** The median *)

Module MedianFacts.

Lemma insert_perm x l : Permutation (x :: l) (np.insert x l).
Proof.
  induction l as [|y r IH]; simpl.
  - apply Permutation_refl.
  - destruct (x <=? y)%Z.
    + apply Permutation_refl.
    + eapply perm_trans; [apply perm_swap|].
      apply perm_skip, IH.
Qed.

Lemma sort_perm l : Permutation l (np.sort l).
Proof.
  induction l as [|x r IH]; simpl.
  - constructor.
  - eapply perm_trans; [apply perm_skip, IH | apply insert_perm].
Qed.

Lemma sort_length l : length (np.sort l) = length l.
Proof. symmetry. apply Permutation_length, sort_perm. Qed.

Lemma insert_sorted x l :
  StronglySorted Z.le l -> StronglySorted Z.le (np.insert x l).
Proof.
  induction 1 as [|y r Hr IH Hy]; simpl.
  - repeat constructor.
  - destruct (Z.leb_spec x y) as [Hxy|Hxy].
    + constructor.
      * constructor; assumption.
      * constructor; [assumption|].
        eapply Forall_impl; [|exact Hy]. intros z Hz. simpl in Hz. lia.
    + constructor; [exact IH|].
      eapply Permutation_Forall; [apply insert_perm|].
      constructor; [lia | exact Hy].
Qed.

Lemma sort_sorted l : StronglySorted Z.le (np.sort l).
Proof.
  induction l as [|x r IH]; simpl.
  - constructor.
  - apply insert_sorted, IH.
Qed.






End MedianFacts.



(* ------------------------------------------------------------------ *)
(** ** Rules for the event log *)

Section TraceRules.
Context {C : Collaborators}.

Lemma bind_ok {A B} (m : M A) (k : A -> M B) w a w' :
  m w = (Ok a, w') -> bind m k w = k a w'.
Proof. intros H. unfold bind. rewrite H. reflexivity. Qed.

Lemma bind_raise {A B} (m : M A) (k : A -> M B) w e w' :
  m w = (Raise e, w') -> bind m k w = (Raise e, w').
Proof. intros H. unfold bind. rewrite H. reflexivity. Qed.

Lemma call_ok {A} ev (impl : ExtState -> result A * ExtState) w a s :
  impl (ext w) = (Ok a, s) ->
  call ev impl w = (Ok a, mkWorld (events w ++ [ev]) s).
Proof. intros H. unfold call. rewrite H. reflexivity. Qed.

Lemma call_raise {A} ev (impl : ExtState -> result A * ExtState) w e s :
  impl (ext w) = (Raise e, s) ->
  call ev impl w = (Raise e, mkWorld (events w ++ [ev; EvRaised e]) s).
Proof. intros H. unfold call. rewrite H. reflexivity. Qed.

Lemma traces_conseq {A} (m : M A) (Q Q' : result A -> list Event -> Prop) :
  traces m Q -> (forall r tr, Q r tr -> Q' r tr) -> traces m Q'.
Proof.
  intros Hm HQ w. destruct (Hm w) as [tr [E H]].
  exists tr. split; [exact E | apply HQ, H].
Qed.

Lemma traces_ret {A} (a : A) : traces (ret a) (fun r tr => r = Ok a /\ tr = []).
Proof. intros w. exists []. simpl. rewrite app_nil_r. auto. Qed.

Lemma traces_raise {A} e :
  traces (@raise _ A e) (fun r tr => r = Raise e /\ tr = [EvRaised e]).
Proof. intros w. exists [EvRaised e]. simpl. auto. Qed.

Lemma traces_log ev : traces (log ev) (fun r tr => r = Ok tt /\ tr = [ev]).
Proof. intros w. exists [ev]. simpl. auto. Qed.

Lemma traces_call {A} ev (impl : ExtState -> result A * ExtState) :
  traces (call ev impl)
         (fun r tr => match r with
                      | Ok _ => tr = [ev]
                      | Raise e => tr = [ev; EvRaised e]
                      end).
Proof.
  intros w. unfold call. destruct (impl (ext w)) as [[a|e] s]; simpl; eauto.
Qed.

Lemma traces_bind {A B} (m : M A) (k : A -> M B) Q1 Q2 :
  traces m Q1 -> (forall a, traces (k a) (Q2 a)) ->
  traces (bind m k)
         (fun r tr =>
            (exists e, r = Raise e /\ Q1 (Raise e) tr) \/
            (exists a tr1 tr2, tr = tr1 ++ tr2 /\ Q1 (Ok a) tr1 /\ Q2 a r tr2)).
Proof.
  intros Hm Hk w. unfold bind.
  destruct (Hm w) as [tr1 [E1 H1]].
  destruct (m w) as [[a|e] w']; simpl in *.
  - destruct (Hk a w') as [tr2 [E2 H2]].
    exists (tr1 ++ tr2). rewrite E2, E1, app_assoc. split; [reflexivity|].
    right. exists a, tr1, tr2. auto.
  - exists tr1. split; [exact E1|]. left. eauto.
Qed.

(** *** Every event written satisfies [P] *)

Section All.
Variable P : Event -> Prop.
Hypothesis P_raised : forall e, P (EvRaised e).

Lemma all_ret {A} (a : A) : all_events P (ret a).
Proof.
  eapply traces_conseq; [apply traces_ret|].
  intros r tr [_ ->]. constructor.
Qed.

Lemma all_raise {A} e : all_events P (@raise _ A e).
Proof.
  eapply traces_conseq; [apply traces_raise|].
  intros r tr [_ ->]. repeat constructor. apply P_raised.
Qed.

Lemma all_log ev : P ev -> all_events P (log ev).
Proof.
  intros H. eapply traces_conseq; [apply traces_log|].
  intros r tr [_ ->]. repeat constructor. exact H.
Qed.

Lemma all_call {A} ev (impl : ExtState -> result A * ExtState) :
  P ev -> all_events P (call ev impl).
Proof.
  intros H. eapply traces_conseq; [apply traces_call|].
  intros [a|e] tr ->; repeat constructor; auto.
Qed.

Lemma all_bind {A B} (m : M A) (k : A -> M B) :
  all_events P m -> (forall a, all_events P (k a)) -> all_events P (bind m k).
Proof.
  intros Hm Hk. eapply traces_conseq;
    [exact (@traces_bind _ _ m k (fun _ tr => Forall P tr)
                         (fun _ _ tr => Forall P tr) Hm Hk)|].
  intros r tr [[e [_ H]] | [a [tr1 [tr2 [-> [H1 H2]]]]]].
  - exact H.
  - apply Forall_app. auto.
Qed.

Lemma all_index {A} (o : option A) : all_events P (index o).
Proof. destruct o; [apply all_ret | apply all_raise]. Qed.

Lemma all_lift {A} (r : result A) : all_events P (lift r).
Proof. destruct r; [apply all_ret | apply all_raise]. Qed.

Lemma all_assert b : all_events P (assert b).
Proof. destruct b; [apply all_ret | apply all_raise]. Qed.

Lemma all_for_each {A} (xs : list A) body :
  (forall x, all_events P (body x)) -> all_events P (for_each xs body).
Proof.
  intros Hb. induction xs as [|x r IH]; simpl.
  - apply all_ret.
  - apply all_bind; auto.
Qed.

Lemma all_for_list {A B} (xs : list A) (body : A -> M B) :
  (forall x, all_events P (body x)) -> all_events P (for_list xs body).
Proof.
  intros Hb. induction xs as [|x r IH]; simpl.
  - apply all_ret.
  - apply all_bind; [apply Hb|]. intros y.
    apply all_bind; [exact IH|]. intros ys. apply all_ret.
Qed.

End All.

(** *** No exception is swallowed *)

Lemma propagates_ret {A} (a : A) : propagates (ret a).
Proof.
  eapply traces_conseq; [apply traces_ret|].
  intros r tr [-> ->]. constructor.
Qed.

Lemma propagates_raise {A} e : propagates (@raise _ A e).
Proof.
  eapply traces_conseq; [apply traces_raise|].
  intros r tr [-> ->]. exists []. split; [reflexivity | constructor].
Qed.

Lemma propagates_log ev : ~ raised ev -> propagates (log ev).
Proof.
  intros H. eapply traces_conseq; [apply traces_log|].
  intros r tr [-> ->]. repeat constructor. exact H.
Qed.

Lemma propagates_call {A} ev (impl : ExtState -> result A * ExtState) :
  ~ raised ev -> propagates (call ev impl).
Proof.
  intros H. eapply traces_conseq; [apply traces_call|].
  intros [a|e] tr ->; simpl.
  - repeat constructor. exact H.
  - exists [ev]. split; [reflexivity|]. repeat constructor. exact H.
Qed.

Lemma propagates_bind {A B} (m : M A) (k : A -> M B) :
  propagates m -> (forall a, propagates (k a)) -> propagates (bind m k).
Proof.
  intros Hm Hk. eapply traces_conseq;
    [exact (@traces_bind _ _ m k (@unhandled _ A)
                         (fun _ => @unhandled _ B) Hm Hk)|].
  intros r tr [[e [-> H]] | [a [tr1 [tr2 [-> [H1 H2]]]]]].
  - exact H.
  - simpl in H1. destruct r as [b|e]; simpl in *.
    + apply Forall_app. auto.
    + destruct H2 as [tr0 [-> H0]].
      exists (tr1 ++ tr0). rewrite app_assoc. split; [reflexivity|].
      apply Forall_app. auto.
Qed.

Lemma propagates_index {A} (o : option A) : propagates (index o).
Proof. destruct o; [apply propagates_ret | apply propagates_raise]. Qed.

Lemma propagates_lift {A} (r : result A) : propagates (lift r).
Proof. destruct r; [apply propagates_ret | apply propagates_raise]. Qed.

Lemma propagates_assert b : propagates (assert b).
Proof. destruct b; [apply propagates_ret | apply propagates_raise]. Qed.

Lemma propagates_for_each {A} (xs : list A) body :
  (forall x, propagates (body x)) -> propagates (for_each xs body).
Proof.
  intros Hb. induction xs as [|x r IH]; simpl.
  - apply propagates_ret.
  - apply propagates_bind; auto.
Qed.

(** An exception seen in the log is the outcome. *)
Lemma unhandled_raised {A} (r : result A) tr e :
  unhandled r tr -> In (EvRaised e) tr -> r = Raise e.
Proof.
  destruct r as [a|e']; simpl.
  - intros H Hin. rewrite Forall_forall in H.
    exfalso. apply (H _ Hin). exists e. reflexivity.
  - intros [tr0 [-> H0]] Hin. apply in_app_or in Hin.
    destruct Hin as [Hin | [Heq | []]].
    + rewrite Forall_forall in H0.
      exfalso. apply (H0 _ Hin). exists e. reflexivity.
    + congruence.
Qed.

End TraceRules.

Ltac not_raised := let e := fresh in let H := fresh in intros [e H]; discriminate H.

Ltac propagate :=
  repeat first
    [ apply propagates_ret
    | apply propagates_raise
    | apply propagates_index
    | apply propagates_lift
    | apply propagates_assert
    | apply propagates_call; not_raised
    | apply propagates_log; not_raised
    | apply propagates_for_each; intros ?
    | apply propagates_bind; [|intros ?] ].

Ltac all_events_with HR :=
  repeat first
    [ apply all_ret
    | apply all_raise; exact HR
    | apply all_index; exact HR
    | apply all_lift; exact HR
    | apply all_assert; exact HR
    | apply all_call; [exact HR | solve [simpl; auto]]
    | apply all_log; solve [simpl; auto]
    | apply all_for_each; intros ?
    | apply all_for_list; intros ?
    | apply all_bind; [|intros ?] ].

(* ------------------------------------------------------------------ *)
(** ** The metric function *)

Section MetricFacts.
Context {C : Collaborators}.

Lemma bind_ret_l {A B} (a : A) (k : A -> M B) : bind (ret a) k = k a.
Proof. reflexivity. Qed.

Lemma bind_raise_l {A B} e (k : A -> M B) : bind (raise e) k = raise e.
Proof. reflexivity. Qed.

Lemma py_getitem_head {A} (x : A) l : py_getitem (x :: l) 0 = Some x.
Proof.
  unfold py_getitem.
  replace (0 <? 0)%Z with false by reflexivity.
  replace (0 <=? 0)%Z with true by reflexivity.
  destruct (Z.ltb_spec 0 (Z.of_nat (length (x :: l)))) as [_|H].
  - reflexivity.
  - simpl length in H. lia.
Qed.

Lemma py_getitem_one {A} (l : list A) h :
  py_getitem l 1 = Some h <-> exists a rest, l = a :: h :: rest.
Proof.
  unfold py_getitem. cbv zeta.
  replace (1 <? 0)%Z with false by reflexivity.
  replace (0 <=? 1)%Z with true by reflexivity.
  destruct l as [|a [|h' rest]].
  - simpl. split; [discriminate | intros (a & rest & H); discriminate H].
  - simpl. split; [discriminate | intros (a' & rest & H); discriminate H].
  - destruct (Z.ltb_spec 1 (Z.of_nat (length (a :: h' :: rest)))) as [_|H];
      [|simpl length in H; lia].
    simpl. split.
    + intros H. inversion H. eauto.
    + intros (a' & rest' & H). inversion H. reflexivity.
Qed.

Lemma py_getitem_minus2 {A} (l : list A) x :
  py_getitem l (-2) = Some x <-> exists pre last, l = pre ++ [x; last].
Proof.
  unfold py_getitem. cbv zeta.
  replace (-2 <? 0)%Z with true by reflexivity.
  split.
  - destruct ((0 <=? -2 + Z.of_nat (length l))%Z &&
              (-2 + Z.of_nat (length l) <? Z.of_nat (length l))%Z) eqn:E;
      [|discriminate].
    apply andb_prop in E. destruct E as [E1 _]. apply Z.leb_le in E1.
    intros H. apply nth_error_split in H. destruct H as (l1 & l2 & Hl & Hlen).
    assert (H2 : length l2 = 1).
    { pose proof (f_equal (@length A) Hl) as HL.
      rewrite length_app in HL. cbn [length] in HL. lia. }
    destruct l2 as [|last [|y l2]]; simpl in H2; try lia.
    exists l1, last. exact Hl.
  - intros (pre & last & ->).
    assert (Hj : (-2 + Z.of_nat (length (pre ++ [x; last])))%Z
                 = Z.of_nat (length pre)).
    { rewrite length_app. cbn [length]. lia. }
    rewrite Hj.
    assert (Hc : ((0 <=? Z.of_nat (length pre))%Z &&
                  (Z.of_nat (length pre) <?
                   Z.of_nat (length (pre ++ [x; last])))%Z) = true).
    { apply andb_true_intro. split.
      - apply Z.leb_le. lia.
      - apply Z.ltb_lt. rewrite length_app. cbn [length]. lia. }
    rewrite Hc, Nat2Z.id, nth_error_app2, Nat.sub_diag by lia. reflexivity.
Qed.

Lemma penultimate_layer_spec (learn : Learner) (layer : Layer) :
  penultimate_layer learn = Some layer <->
  exists body head rest pre last,
    learn_model learn = body :: head :: rest /\ head = pre ++ [layer; last].
Proof.
  unfold penultimate_layer. split.
  - destruct (py_getitem (learn_model learn) 1) as [head|] eqn:E;
      [|discriminate].
    apply py_getitem_one in E. destruct E as (body & rest & E).
    intros H. apply py_getitem_minus2 in H. destruct H as (pre & last & H).
    exists body, head, rest, pre, last. auto.
  - intros (body & head & rest & pre & last & Hm & Hh).
    assert (E : py_getitem (learn_model learn) 1 = Some head).
    { apply py_getitem_one. eauto. }
    rewrite E. apply py_getitem_minus2. eauto.
Qed.

(** After a call, the rest of the function only adds events. *)
Lemma call_then_extends {A B} ev (impl : ExtState -> result A * ExtState)
    (k : A -> M B) :
  (forall a, all_events (fun _ => True) (k a)) ->
  traces (bind (call ev impl) k) (fun _ tr => exists tl, tr = ev :: tl).
Proof.
  intros Hk.
  eapply traces_conseq;
    [exact (@traces_bind _ _ _ (call ev impl) k _ (fun _ _ tr => Forall (fun _ => True) tr)
                         (traces_call ev impl) Hk)|].
  intros r tr [[e [_ H]] | [a [tr1 [tr2 [-> [H1 _]]]]]].
  - rewrite H. eauto.
  - simpl in H1. rewrite H1. simpl. eauto.
Qed.

Lemma for_each_distances_ok features sets : forall w s',
  distances_on_each features sets (ext w) = (Ok tt, s') ->
  for_each sets (fun cs => compute_distances cs features) w =
  (Ok tt,
   mkWorld (events w ++ map (fun cs => EvComputeDistances cs features) sets) s').
Proof.
  induction sets as [|cs r IH]; intros w s' H; simpl in *.
  - inversion H; subst. unfold ret. destruct w as [evs s]; simpl.
    rewrite app_nil_r. reflexivity.
  - destruct (ext_compute_distances cs features (ext w)) as [[u|e] s1] eqn:E;
      [|discriminate].
    erewrite bind_ok; [|unfold compute_distances; apply call_ok; exact E].
    rewrite (IH _ s'); [|exact H]. simpl.
    rewrite <- app_assoc. reflexivity.
Qed.

Lemma retrieval_rank_tail learn sets :
  all_events (rank_tail_event learn)
    (embedding_layer <- index (penultimate_layer learn) ;;
     valid_features <-
       compute_features_learner (learn_data learn) Valid learn embedding_layer ;;
     first <- index (py_getitem (values valid_features) 0) ;;
     assert (length first =? 512)%nat ;;
     for_each sets (fun cs => compute_distances cs valid_features) ;;
     ranks <- positive_image_ranks sets ;;
     ret (np.median ranks)).
Proof.
  assert (HR : forall e, rank_tail_event learn (EvRaised e)) by (intros; exact I).
  destruct (penultimate_layer learn) as [layer|] eqn:El; unfold index at 1.
  - rewrite bind_ret_l. all_events_with HR.
  - rewrite bind_raise_l. apply all_raise, HR.
Qed.

Lemma retrieval_rank_propagates learn : propagates (retrieval_rank learn).
Proof. unfold retrieval_rank. propagate. Qed.

Lemma retrieval_rank_events (learn : Learner) (w : World) :
  exists tr,
    events (snd (retrieval_rank learn w)) =
    events w ++
      EvComparativeSetBuilder (valid_ds (learn_data learn)) 1000 99 :: tr /\
    Forall (rank_tail_event learn) tr.
Proof.
  unfold retrieval_rank, comparative_set_builder.
  unfold bind at 1, call.
  destruct (ext_comparative_set_builder _ 1000 99 (ext w)) as [[sets|e] s1].
  - destruct (retrieval_rank_tail learn sets
                (mkWorld (events w ++
                   [EvComparativeSetBuilder (valid_ds (learn_data learn)) 1000 99])
                   s1)) as [tr [E H]].
    exists tr. split; [|exact H].
    rewrite E. simpl. rewrite <- app_assoc. reflexivity.
  - exists [EvRaised e]. simpl. split; [reflexivity|].
    repeat constructor.
Qed.

(** C9.  Whatever the learner and the state of the libraries,
    [retrieval_rank] first calls [comparative_set_builder] on the
    learner's validation set with [num_sets = 1000] and
    [num_negatives = 99], never calls it again, and every call of
    [compute_features_learner] it makes is given the layer
    [learn.model[1][-2]].  That layer is the last but one layer of the
    second child of the model.  Once the sets are built: if the layer
    exists, the next call is [compute_features_learner] on the learner's
    data, the validation set and that layer; if it does not exist, the
    function raises IndexError and computes no feature. *)
Theorem retrieval_rank_fixed_parameters (learn : Learner) (w : World) :
  (exists tr,
     events (snd (retrieval_rank learn w)) =
     events w ++
       EvComparativeSetBuilder (valid_ds (learn_data learn)) 1000 99 :: tr /\
     Forall (rank_tail_event learn) tr) /\
  (forall layer,
     penultimate_layer learn = Some layer <->
     exists body head rest pre last,
       learn_model learn = body :: head :: rest /\
       head = pre ++ [layer; last]) /\
  (forall sets s1 layer,
     ext_comparative_set_builder (valid_ds (learn_data learn)) 1000 99 (ext w)
       = (Ok sets, s1) ->
     penultimate_layer learn = Some layer ->
     exists tr,
       events (snd (retrieval_rank learn w)) =
       events w ++
         EvComparativeSetBuilder (valid_ds (learn_data learn)) 1000 99 ::
         EvComputeFeaturesLearner (learn_data learn) Valid learn layer :: tr) /\
  (forall sets s1,
     ext_comparative_set_builder (valid_ds (learn_data learn)) 1000 99 (ext w)
       = (Ok sets, s1) ->
     penultimate_layer learn = None ->
     retrieval_rank learn w =
     (Raise IndexError,
      mkWorld (events w ++
                 [ EvComparativeSetBuilder (valid_ds (learn_data learn)) 1000 99;
                   EvRaised IndexError ])
              s1)).
Proof.
  split; [exact (retrieval_rank_events learn w)|].
  split; [intros layer; apply penultimate_layer_spec|].
  split.
  - intros sets s1 layer Hb Hl. unfold retrieval_rank.
    erewrite bind_ok;
      [|unfold comparative_set_builder; apply call_ok; exact Hb].
    rewrite Hl. unfold index at 1. rewrite bind_ret_l.
    unfold compute_features_learner.
    match goal with
    | |- context [bind (call ?ev ?impl) ?k ?w1] =>
        destruct (@call_then_extends _ _ ev impl k) with (w := w1)
          as [tr [E [tl ->]]]
    end.
    + intros features.
      assert (HR : forall e : exn, (fun _ : Event => True) (EvRaised e))
        by (intros; exact I).
      unfold compute_distances, positive_image_ranks.
      all_events_with HR.
    + exists tl. rewrite E. cbn [events]. rewrite <- app_assoc. reflexivity.
  - intros sets s1 Hb Hl. unfold retrieval_rank.
    erewrite bind_ok;
      [|unfold comparative_set_builder; apply call_ok; exact Hb].
    rewrite Hl. unfold index at 1. rewrite bind_raise_l.
    unfold raise. cbn [events ext]. rewrite <- app_assoc. reflexivity.
Qed.

(** C8.  Once the comparative sets are built and the features computed,
    [retrieval_rank] looks at the first entry of the feature dict only.
    If its length is not 512, AssertionError is raised at once: no median
    is returned and neither [compute_distances] nor
    [positive_image_ranks] is called.  If its length is 512, whatever the
    other entries are, the function goes on to the distances, the ranks
    and the median. *)
Theorem retrieval_rank_asserts_first_feature
    (learn : Learner) (w : World) sets s1 layer key first rest s2 :
  ext_comparative_set_builder (valid_ds (learn_data learn)) 1000 99 (ext w)
    = (Ok sets, s1) ->
  penultimate_layer learn = Some layer ->
  ext_compute_features_learner (learn_data learn) Valid learn layer s1
    = (Ok ((key, first) :: rest), s2) ->
  let features := (key, first) :: rest in
  let before :=
    events w ++
      [ EvComparativeSetBuilder (valid_ds (learn_data learn)) 1000 99;
        EvComputeFeaturesLearner (learn_data learn) Valid learn layer ] in
  (length first <> 512 ->
     retrieval_rank learn w =
     (Raise AssertionError, mkWorld (before ++ [EvRaised AssertionError]) s2))
  /\
  (length first = 512 ->
     retrieval_rank learn w =
     (for_each sets (fun cs => compute_distances cs features) ;;
      ranks <- positive_image_ranks sets ;;
      ret (np.median ranks)) (mkWorld before s2)).
Proof.
  intros Hb Hl Hf features before.
  assert (Hstart :
    retrieval_rank learn w =
    (assert (length first =? 512)%nat ;;
     for_each sets (fun cs => compute_distances cs features) ;;
     ranks <- positive_image_ranks sets ;;
     ret (np.median ranks)) (mkWorld before s2)).
  { unfold retrieval_rank.
    erewrite bind_ok;
      [|unfold comparative_set_builder; apply call_ok; exact Hb].
    rewrite Hl. unfold index at 1. rewrite bind_ret_l.
    erewrite bind_ok;
      [|unfold compute_features_learner; apply call_ok; simpl; exact Hf].
    simpl values. rewrite py_getitem_head. unfold index. rewrite bind_ret_l.
    unfold before. cbn [events ext]. rewrite <- app_assoc. reflexivity. }
  split; intros Hlen; rewrite Hstart.
  - apply Nat.eqb_neq in Hlen. rewrite Hlen. reflexivity.
  - rewrite Hlen, Nat.eqb_refl. reflexivity.
Qed.

(** C1, as amended.  When the collaborators return, the learner has a
    layer [model[1][-2]], and the first feature vector has 512 entries,
    [retrieval_rank] returns [np.median] of the ranks that
    [positive_image_ranks] gives for the comparative sets built by
    [comparative_set_builder], after [compute_distances] has run on each
    of them; nothing else is done to the ranks. *)
Theorem retrieval_rank_is_median_of_ranks
    (learn : Learner) (w : World) sets s1 layer features first s2 s3 ranks s4 :
  ext_comparative_set_builder (valid_ds (learn_data learn)) 1000 99 (ext w)
    = (Ok sets, s1) ->
  penultimate_layer learn = Some layer ->
  ext_compute_features_learner (learn_data learn) Valid learn layer s1
    = (Ok features, s2) ->
  py_getitem (values features) 0 = Some first ->
  length first = 512 ->
  distances_on_each features sets s2 = (Ok tt, s3) ->
  ext_positive_image_ranks sets s3 = (Ok ranks, s4) ->
  retrieval_rank learn w =
  (Ok (np.median ranks),
   mkWorld
     (events w ++
        [ EvComparativeSetBuilder (valid_ds (learn_data learn)) 1000 99;
          EvComputeFeaturesLearner (learn_data learn) Valid learn layer ] ++
        map (fun cs => EvComputeDistances cs features) sets ++
        [ EvPositiveImageRanks sets ])
     s4).
Proof.
  intros Hb Hl Hf Hfirst Hlen Hd Hr.
  unfold retrieval_rank.
  erewrite bind_ok;
    [|unfold comparative_set_builder; apply call_ok; exact Hb].
  rewrite Hl. unfold index at 1. rewrite bind_ret_l.
  erewrite bind_ok;
    [|unfold compute_features_learner; apply call_ok; simpl; exact Hf].
  rewrite Hfirst. unfold index. rewrite bind_ret_l.
  rewrite Hlen, Nat.eqb_refl. unfold assert. rewrite bind_ret_l.
  erewrite bind_ok; [|apply for_each_distances_ok; simpl; exact Hd].
  erewrite bind_ok;
    [|unfold positive_image_ranks; apply call_ok; simpl; exact Hr].
  unfold ret. cbn [events ext]. repeat rewrite <- app_assoc. reflexivity.
Qed.

End MetricFacts.

(* ------------------------------------------------------------------ *)
(** ** The sweep and the cells *)

Section SweepFacts.
Context {C : Collaborators}.

Lemma steps_app (tr1 tr2 : list Event) : steps (tr1 ++ tr2) = steps tr1 ++ steps tr2.
Proof. apply flat_map_app. Qed.

Lemma returns_conseq {A} (m : M A) (R R' : A -> list Event -> Prop) :
  returns m R -> (forall a tr, R a tr -> R' a tr) -> returns m R'.
Proof.
  intros Hm HR. eapply traces_conseq; [exact Hm|].
  intros r tr H a Ha. apply HR, H, Ha.
Qed.

Lemma returns_ret {A} (a : A) : returns (ret a) (fun a' tr => a' = a /\ tr = []).
Proof.
  eapply traces_conseq; [apply traces_ret|].
  intros r tr [-> ->] a' Ha. inversion Ha. auto.
Qed.

Lemma returns_log ev : returns (log ev) (fun _ tr => tr = [ev]).
Proof.
  eapply traces_conseq; [apply traces_log|].
  intros r tr [-> ->] a' _. reflexivity.
Qed.

Lemma returns_call {A} ev (impl : ExtState -> result A * ExtState) :
  returns (call ev impl) (fun _ tr => tr = [ev]).
Proof.
  eapply traces_conseq; [apply traces_call|].
  intros r tr H a Ha. subst r. exact H.
Qed.

Lemma returns_lift {A} (r : result A) :
  returns (lift r) (fun a tr => r = Ok a /\ tr = []).
Proof.
  destruct r as [a|e]; simpl.
  - eapply returns_conseq; [apply returns_ret|].
    intros a' tr [-> ->]. auto.
  - eapply traces_conseq; [apply traces_raise|].
    intros r tr [-> _] a Ha. discriminate Ha.
Qed.

Lemma returns_bind {A B} (m : M A) (k : A -> M B) R1 R2 :
  returns m R1 -> (forall a, returns (k a) (R2 a)) ->
  returns (bind m k)
          (fun b tr => exists a tr1 tr2,
               tr = tr1 ++ tr2 /\ R1 a tr1 /\ R2 a b tr2).
Proof.
  intros Hm Hk w. unfold bind.
  destruct (Hm w) as [tr1 [E1 H1]].
  destruct (m w) as [[a|e] w']; simpl in *.
  - destruct (Hk a w') as [tr2 [E2 H2]].
    exists (tr1 ++ tr2). rewrite E2, E1, app_assoc. split; [reflexivity|].
    intros b Hb. exists a, tr1, tr2. auto.
  - exists tr1. split; [exact E1|]. intros b Hb. discriminate Hb.
Qed.

Lemma returns_for_list {X Y} (xs : list X) (body : X -> M Y)
    (P : X -> Y -> Prop) (f : X -> list Step) :
  (forall x, returns (body x) (fun y tr => P x y /\ steps tr = f x)) ->
  returns (for_list xs body)
          (fun ys tr => Forall2 P xs ys /\ steps tr = flat_map f xs).
Proof.
  intros Hb. induction xs as [|x r IH]; simpl.
  - eapply returns_conseq; [apply returns_ret|].
    intros ys tr [-> ->]. split; constructor.
  - eapply returns_conseq.
    + eapply returns_bind; [apply Hb|]. intros y.
      eapply returns_bind; [exact IH|]. intros ys. apply returns_ret.
    + cbv beta.
      intros l tr (y & tr1 & tr2' & -> & [HP Hs] & ys & tr2 & tr3 & -> &
                   [HF Hs'] & -> & ->).
      split; [constructor; assumption|].
      rewrite app_nil_r, steps_app, Hs, Hs'. reflexivity.
Qed.

Lemma rank_tail_steps learn tr :
  Forall (rank_tail_event learn) tr -> steps tr = [].
Proof.
  induction 1 as [|ev r Hev _ IH]; [reflexivity|].
  unfold steps in *. simpl. rewrite IH.
  destruct ev; simpl in *; try contradiction; reflexivity.
Qed.

Lemma retrieval_rank_returns learn :
  returns (retrieval_rank learn) (fun _ tr => steps tr = [RankMetric 1000 99]).
Proof.
  intros w. destruct (retrieval_rank_events learn w) as [tl [E H]].
  eexists. split; [exact E|]. intros a _.
  change (RankMetric 1000 99 :: steps tl = [RankMetric 1000 99]).
  rewrite (rank_tail_steps H). reflexivity.
Qed.

(** *** The keys collected by the three loops *)

Lemma Forall2_keys {X} (key : X -> list Label) xs
    (rows : list (list Label * list npfloat)) :
  Forall2 (fun x row => fst row = key x /\ length (snd row) = 2) xs rows ->
  map fst rows = map key xs /\ Forall (fun r => length (snd r) = 2) rows.
Proof.
  induction 1 as [|x row xs rows [Hk Hl] _ [IHk IHl]]; simpl.
  - split; constructor.
  - split; [congruence | constructor; assumption].
Qed.

Lemma Forall2_flat_keys {X Y} (keys : X -> list (list Label))
    (h : Y -> list (list Label * list npfloat)) xs ys :
  Forall2 (fun x y => map fst (h y) = keys x /\
                      Forall (fun r => length (snd r) = 2) (h y)) xs ys ->
  map fst (flat_map h ys) = flat_map keys xs /\
  Forall (fun r => length (snd r) = 2) (flat_map h ys).
Proof.
  induction 1 as [|x y xs ys [Hk Hl] _ [IHk IHl]]; simpl.
  - split; constructor.
  - rewrite map_app, Hk, IHk. split; [reflexivity|].
    apply Forall_app. auto.
Qed.

Lemma concat_flat_map {A} (l : list (list A)) : concat l = flat_map (fun x => x) l.
Proof. induction l as [|x r IH]; simpl; [|rewrite IH]; reflexivity. Qed.

Lemma concat_concat {A} (l : list (list (list A))) :
  concat (concat l) = flat_map (@concat A) l.
Proof.
  induction l as [|x r IH]; simpl; [reflexivity|].
  rewrite concat_app, IH. reflexivity.
Qed.

Lemma flat_map_numbered {X Y} (g : X -> list Y) (l : list X) : forall start,
  flat_map (fun ip : nat * X => g (snd ip)) (combine (seq start (length l)) l)
  = flat_map g l.
Proof.
  induction l as [|x r IH]; intros start; simpl; [reflexivity|].
  rewrite IH. reflexivity.
Qed.

Lemma evaluate_returns rep perm dataset (trained : Learner * npfloat) :
  returns
    (let (learn, duration) := trained in
     log (EvMetricFct learn) ;;
     metric <- retrieval_rank learn ;;
     ret (result_key rep perm dataset, [metric; duration]))
    (fun row tr =>
       (fst row = result_key rep perm dataset /\ length (snd row) = 2) /\
       steps tr = [EvaluateMetric; RankMetric 1000 99]).
Proof.
  destruct trained as [learn duration].
  eapply returns_conseq.
  - eapply returns_bind; [apply returns_log|]. intros u.
    eapply returns_bind; [apply retrieval_rank_returns|]. intros metric.
    apply returns_ret.
  - cbv beta.
    intros row tr (u & tr1 & tr2 & -> & -> & metric & tr3 & tr4 & -> & Hs &
                   -> & ->).
    split; [split; reflexivity|].
    rewrite app_nil_r, steps_app, Hs. reflexivity.
Qed.

Lemma run_returns sw datasets reps :
  returns (ParameterSweeper_run sw datasets reps retrieval_rank)
    (fun df tr =>
       steps tr = sweep_steps (permutations sw) datasets reps /\
       sweep_frame (metric_name sw) (permutations sw) datasets reps df).
Proof.
  unfold ParameterSweeper_run.
  set (perms := permutations sw).
  eapply returns_conseq.
  - eapply returns_bind; [|intros res; apply returns_ret].
    apply returns_for_list with
      (P := fun rep rowss =>
              map fst (concat rowss) =
              flat_map (fun perm => map (result_key rep perm) datasets) perms /\
              Forall (fun r => length (snd r) = 2) (concat rowss))
      (f := fun rep =>
              flat_map (fun ip : nat * permutation =>
                PrintLine (progress_line (fst ip) (length perms) rep reps) ::
                flat_map (fun dataset =>
                  [TrainModel dataset (snd ip); EvaluateMetric;
                   RankMetric 1000 99]) datasets)
                (combine (seq 0 (length perms)) perms)).
    intros rep.
    eapply returns_conseq.
    + apply returns_for_list with
        (P := fun (ip : nat * permutation) rows =>
                map fst rows = map (result_key rep (snd ip)) datasets /\
                Forall (fun r => length (snd r) = 2) rows)
        (f := fun ip : nat * permutation =>
                PrintLine (progress_line (fst ip) (length perms) rep reps) ::
                flat_map (fun dataset =>
                  [TrainModel dataset (snd ip); EvaluateMetric;
                   RankMetric 1000 99]) datasets).
      intros [i perm].
      eapply returns_conseq.
      * eapply returns_bind; [apply returns_log|]. intros ?.
        apply returns_for_list with
          (P := fun dataset (row : list Label * list npfloat) =>
                  fst row = result_key rep perm dataset /\
                  length (snd row) = 2)
          (f := fun dataset =>
                  [TrainModel dataset perm; EvaluateMetric; RankMetric 1000 99]).
        intros dataset.
        eapply returns_conseq.
        -- eapply returns_bind; [apply returns_call|]. intros trained.
           apply evaluate_returns.
        -- cbv beta.
           intros row tr (t & tr1 & tr2 & -> & -> & HP & Hs).
           split; [exact HP|].
           rewrite steps_app, Hs. reflexivity.
      * cbv beta.
        intros rows tr (u & tr1 & tr2 & -> & -> & HF & Hs).
        split; [apply Forall2_keys; exact HF|].
        rewrite steps_app, Hs. reflexivity.
    + cbv beta. intros rowss tr [HF Hs]. split; [|exact Hs].
      rewrite concat_flat_map.
      rewrite <- (flat_map_numbered
                    (fun perm => map (result_key rep perm) datasets) perms 0).
      apply Forall2_flat_keys with (h := fun rows => rows). exact HF.
  - cbv beta.
    intros df tr (res & tr1 & tr2 & -> & [HF Hs] & -> & ->).
    rewrite app_nil_r. split; [exact Hs|].
    apply Forall2_flat_keys with (h := @concat _) in HF.
    rewrite <- concat_concat in HF.
    unfold sweep_frame, sweep_keys. simpl. tauto.
Qed.

(** *** The rows collected by the three loops *)

Lemma returns_and {A} (m : M A) (R1 R2 : A -> list Event -> Prop) :
  returns m R1 -> returns m R2 -> returns m (fun a tr => R1 a tr /\ R2 a tr).
Proof.
  intros H1 H2 w.
  destruct (H1 w) as [tr [E Ha]]. destruct (H2 w) as [tr' [E' Hb]].
  rewrite E in E'. apply app_inv_head in E'. subst tr'.
  exists tr. split; [exact E|]. intros a Hok. split; auto.
Qed.

Lemma returns_with_value {A} (m : M A) (R : A -> list Event -> Prop) :
  returns m R ->
  returns m (fun a tr => R a tr /\ exists w, fst (m w) = Ok a).
Proof.
  intros H w. destruct (H w) as [tr [E Ha]].
  exists tr. split; [exact E|]. intros a Hok. split; [auto|].
  exists w. exact Hok.
Qed.

Lemma returns_call_value {A} ev (impl : ExtState -> result A * ExtState) :
  returns (call ev impl)
          (fun a tr => tr = [ev] /\ exists s s', impl s = (Ok a, s')).
Proof.
  intros w. unfold call.
  destruct (impl (ext w)) as [[a|e] s'] eqn:E; simpl.
  - exists [ev]. split; [reflexivity|]. intros a' Ha. inversion Ha; subst.
    split; [reflexivity|]. eauto.
  - exists [ev; EvRaised e]. split; [reflexivity|]. intros a' Ha.
    discriminate Ha.
Qed.

Lemma returns_for_list_values {X Y} (xs : list X) (body : X -> M Y)
    (P : X -> Y -> Prop) :
  (forall x, returns (body x) (fun y _ => P x y)) ->
  returns (for_list xs body) (fun ys _ => Forall2 P xs ys).
Proof.
  intros Hb. induction xs as [|x r IH]; simpl.
  - eapply returns_conseq; [apply returns_ret|].
    intros ys tr [-> _]. constructor.
  - eapply returns_conseq.
    + eapply returns_bind; [apply Hb|]. intros y.
      eapply returns_bind; [exact IH|]. intros ys. apply returns_ret.
    + cbv beta.
      intros l tr (y & tr1 & tr2' & _ & HP & ys & tr2 & tr3 & _ & HF & -> & _).
      constructor; assumption.
Qed.

Lemma Forall2_map_left {X Z Y} (R : Z -> Y -> Prop) (f : X -> Z) xs ys :
  Forall2 (fun x y => R (f x) y) xs ys -> Forall2 R (map f xs) ys.
Proof. induction 1; simpl; constructor; assumption. Qed.

Lemma Forall2_flat_map {X W Z Y} (R : Z -> Y -> Prop)
    (g : X -> list Z) (h : W -> list Y) xs ws :
  Forall2 (fun x w => Forall2 R (g x) (h w)) xs ws ->
  Forall2 R (flat_map g xs) (flat_map h ws).
Proof.
  induction 1; simpl; [constructor|]. apply Forall2_app; assumption.
Qed.

Lemma evaluate_row rep perm dataset (trained : Learner * npfloat) :
  returns
    (let (learn, duration) := trained in
     log (EvMetricFct learn) ;;
     metric <- retrieval_rank learn ;;
     ret (result_key rep perm dataset, [metric; duration]))
    (fun row _ =>
       exists metric,
         row = (result_key rep perm dataset, [metric; snd trained]) /\
         exists w, fst (retrieval_rank (fst trained) w) = Ok metric).
Proof.
  destruct trained as [learn duration].
  eapply returns_conseq.
  - eapply returns_bind; [apply returns_log|]. intros u.
    eapply returns_bind;
      [apply returns_with_value, retrieval_rank_returns|].
    intros metric. apply returns_ret.
  - cbv beta.
    intros row tr (u & tr1 & tr2 & _ & _ & metric & tr3 & tr4 & _ &
                   [_ Hw] & -> & _).
    exists metric. split; [reflexivity | exact Hw].
Qed.

Lemma run_rows sw datasets reps :
  returns (ParameterSweeper_run sw datasets reps retrieval_rank)
    (fun df _ =>
       Forall2 sweep_row (sweep_points (permutations sw) datasets reps)
               (rows df)).
Proof.
  unfold ParameterSweeper_run.
  set (perms := permutations sw).
  eapply returns_conseq.
  - eapply returns_bind; [|intros res; apply returns_ret].
    apply returns_for_list_values with
      (P := fun rep rowss =>
              Forall2 sweep_row
                (flat_map (fun perm =>
                   map (fun dataset => (rep, perm, dataset)) datasets) perms)
                (concat rowss)).
    intros rep.
    eapply returns_conseq.
    + apply returns_for_list_values with
        (P := fun (ip : nat * permutation) rows =>
                Forall2 sweep_row
                  (map (fun dataset => (rep, snd ip, dataset)) datasets) rows).
      intros [i perm].
      eapply returns_conseq.
      * eapply returns_bind; [apply returns_log|]. intros ?.
        apply returns_for_list_values with
          (P := fun dataset row => sweep_row (rep, perm, dataset) row).
        intros dataset.
        eapply returns_conseq.
        -- eapply returns_bind; [apply returns_call_value|]. intros trained.
           apply evaluate_row.
        -- cbv beta.
           intros row tr (t & tr1 & tr2 & _ & [_ (s & s' & E)] &
                          metric & -> & Hw).
           destruct t as [learn duration].
           exists learn, duration, metric. simpl. eauto.
      * cbv beta. intros rows tr (u & tr1 & tr2 & _ & _ & HF).
        apply Forall2_map_left. exact HF.
    + cbv beta. intros rowss tr HF.
      rewrite concat_flat_map.
      rewrite <- (flat_map_numbered
                    (fun perm =>
                       map (fun dataset => (rep, perm, dataset)) datasets)
                    perms 0).
      apply Forall2_flat_map with (h := fun rows => rows). exact HF.
  - cbv beta.
    intros df tr (res & tr1 & tr2 & _ & HF & -> & _).
    simpl. rewrite concat_concat.
    apply Forall2_flat_map with (h := @concat _). exact HF.
Qed.

End SweepFacts.

Ltac returns_steps :=
  repeat first
    [ apply returns_ret
    | apply returns_log
    | apply returns_call
    | apply returns_lift
    | eapply returns_bind; [|intros ?] ].

Ltac open_returns :=
  repeat match goal with
         | H : exists _, _ |- _ => destruct H
         | H : _ /\ _ |- _ => destruct H
         end;
  subst.

Section CellFacts.
Context {C : Collaborators}.

Lemma cell_3_returns :
  returns cell_3
    (fun paths tr =>
       exists p1 p2, paths = [p1; p2] /\
         steps tr = [ LoadDataset Urls_fridge_objects_path;
                      LoadDataset Urls_fridge_objects_watermark_path ]).
Proof.
  unfold cell_3, unzip_url.
  eapply returns_conseq; [returns_steps|].
  cbv beta. intros paths tr H. open_returns.
  eexists _, _. split; reflexivity.
Qed.

Lemma cell_6_returns sw paths :
  returns (cell_6 sw paths)
    (fun df tr =>
       steps tr =
         BuildGrid cell_6_kwargs ::
         sweep_steps (permutations (updated sw cell_6_kwargs)) paths REPS /\
       sweep_frame (metric_name sw)
                   (permutations (updated sw cell_6_kwargs)) paths REPS df).
Proof.
  unfold cell_6, cell_6_with, update_parameters.
  eapply returns_conseq.
  - eapply returns_bind; [returns_steps|]. intros sw'.
    eapply returns_bind; [apply run_returns|]. intros df. apply returns_ret.
  - cbv beta. intros df tr H. open_returns.
    rewrite !app_nil_r, !steps_app.
    match goal with Hs : steps _ = sweep_steps _ _ _ |- _ => rewrite Hs end.
    split; [reflexivity | assumption].
Qed.

Lemma post_process_returns df :
  returns (post_process df)
    (fun _ tr => steps tr = post_steps /\
                 exists tl, tr = EvCleanSweeperDf df :: tl).
Proof.
  unfold post_process, cell_7, cell_8, cell_9, cell_10, cell_11, cell_12,
    clean_sweeper_df, plot_bar, plot_sweeper_df, glue.
  eapply returns_conseq; [returns_steps|].
  cbv beta. intros u tr H. open_returns.
  split; [reflexivity|]. eexists. reflexivity.
Qed.

Lemma cell_6_rows sw paths :
  returns (cell_6 sw paths)
    (fun df _ =>
       Forall2 sweep_row
         (sweep_points (permutations (updated sw cell_6_kwargs)) paths REPS)
         (rows df)).
Proof.
  unfold cell_6, cell_6_with, update_parameters.
  eapply returns_conseq.
  - eapply returns_bind; [returns_steps|]. intros sw'.
    eapply returns_bind; [apply run_rows|]. intros df. apply returns_ret.
  - cbv beta. intros df tr H. open_returns. assumption.
Qed.

(** The cells after the sweep, with the arguments of every call. *)
Lemma post_process_events df :
  returns (post_process df) (fun _ tr => post_processed df tr).
Proof.
  unfold post_process, cell_7, cell_8, cell_9, cell_10, cell_11, cell_12,
    clean_sweeper_df, plot_bar, plot_sweeper_df, glue.
  eapply returns_conseq.
  - repeat first
      [ apply returns_ret
      | apply returns_call_value
      | apply returns_lift
      | eapply returns_bind; [|intros ?] ].
  - cbv beta. intros u tr H. open_returns.
    repeat match goal with
           | H1 : ?x = Ok ?a, H2 : ?x = Ok ?b |- _ =>
               first [ constr_eq a b; clear H2
                     | assert (b = a) by congruence; subst b ]
           end.
    unfold post_processed. eexists _, _, _, _, _, _, _.
    split; [simpl; reflexivity|].
    split; [eauto|].
    repeat split; eassumption.
Qed.

Lemma sweep_and_after_returns paths :
  returns (df <- cell_6 (ParameterSweeper_init "rank") paths ;; post_process df)
    (fun _ tr => exists df,
       steps tr =
         BuildGrid cell_6_kwargs ::
         sweep_steps notebook_grid paths REPS ++ post_steps /\
       sweep_frame "rank" notebook_grid paths REPS df /\
       In (EvCleanSweeperDf df) tr /\
       Forall2 sweep_row (sweep_points notebook_grid paths REPS) (rows df) /\
       exists front tail, tr = front ++ tail /\ post_processed df tail).
Proof.
  eapply returns_conseq.
  - eapply returns_bind;
      [apply returns_and; [apply cell_6_returns | apply cell_6_rows]|].
    intros df.
    apply returns_and; [apply post_process_returns | apply post_process_events].
  - cbv beta. intros u tr H. open_returns.
    match goal with
    | H2 : steps _ = _ :: _, H3 : steps _ = post_steps,
      HF : sweep_frame _ _ _ _ ?df |- _ =>
        exists df; rewrite !steps_app, H2, H3
    end.
    split; [reflexivity|]. split; [assumption|].
    split; [apply in_or_app; right; left; reflexivity|].
    split; [assumption|].
    eexists _, _. split; [reflexivity | assumption].
Qed.

(** A run of the notebook that completes has loaded its two datasets. *)
Lemma notebook_loads (w : World) :
  fst (notebook w) = Ok tt ->
  exists p1 s1 p2 s2,
    ext_unzip_url Urls_fridge_objects_path true (ext w) = (Ok p1, s1) /\
    ext_unzip_url Urls_fridge_objects_watermark_path true s1 = (Ok p2, s2) /\
    notebook w =
    (df <- cell_6 (ParameterSweeper_init "rank") [p1; p2] ;; post_process df)
      (mkWorld (events w ++
                  [ EvUnzipUrl Urls_fridge_objects_path true;
                    EvUnzipUrl Urls_fridge_objects_watermark_path true ]) s2).
Proof.
  unfold notebook, notebook_with, cell_3, cell_5, unzip_url.
  destruct (ext_unzip_url Urls_fridge_objects_path true (ext w))
    as [[p1|e] s1] eqn:E1.
  2:{ intros H. exfalso. revert H.
      erewrite bind_raise; [discriminate|].
      erewrite bind_raise; [reflexivity|]. apply call_raise. exact E1. }
  destruct (ext_unzip_url Urls_fridge_objects_watermark_path true s1)
    as [[p2|e] s2] eqn:E2.
  2:{ intros H. exfalso. revert H.
      erewrite bind_raise; [discriminate|].
      erewrite bind_ok; [|apply call_ok; exact E1].
      erewrite bind_raise; [reflexivity|]. apply call_raise. exact E2. }
  intros _. exists p1, s1, p2, s2.
  split; [reflexivity|]. split; [exact E2|].
  erewrite bind_ok.
  2:{ erewrite bind_ok; [|apply call_ok; exact E1].
      erewrite bind_ok; [|apply call_ok; exact E2].
      reflexivity. }
  rewrite bind_ret_l. cbn [events ext]. rewrite <- app_assoc. reflexivity.
Qed.

Lemma notebook_returns (w : World) :
  fst (notebook w) = Ok tt ->
  exists p1 s1 p2 s2 tr df,
    ext_unzip_url Urls_fridge_objects_path true (ext w) = (Ok p1, s1) /\
    ext_unzip_url Urls_fridge_objects_watermark_path true s1 = (Ok p2, s2) /\
    events (snd (notebook w)) = events w ++ tr /\
    steps tr =
      [ LoadDataset Urls_fridge_objects_path;
        LoadDataset Urls_fridge_objects_watermark_path;
        BuildGrid cell_6_kwargs ] ++
      sweep_steps notebook_grid [p1; p2] REPS ++ post_steps /\
    sweep_frame "rank" notebook_grid [p1; p2] REPS df /\
    In (EvCleanSweeperDf df) tr /\
    Forall2 sweep_row (sweep_points notebook_grid [p1; p2] REPS) (rows df) /\
    exists front tail, tr = front ++ tail /\ post_processed df tail.
Proof.
  intros Hok.
  destruct (notebook_loads w Hok) as (p1 & s1 & p2 & s2 & E1 & E2 & Enb).
  rewrite Enb in Hok.
  destruct (sweep_and_after_returns [p1; p2]
              (mkWorld (events w ++
                          [ EvUnzipUrl Urls_fridge_objects_path true;
                            EvUnzipUrl Urls_fridge_objects_watermark_path true ])
                       s2)) as [tr [E H]].
  destruct (H tt Hok)
    as (df & Hs & HF & Hin & Hrows & front & tail & Etr & Hpost).
  exists p1, s1, p2, s2,
    ([ EvUnzipUrl Urls_fridge_objects_path true;
       EvUnzipUrl Urls_fridge_objects_watermark_path true ] ++ tr), df.
  split; [exact E1|]. split; [exact E2|].
  split; [rewrite Enb, E; cbn [events]; rewrite <- app_assoc; reflexivity|].
  split; [rewrite steps_app, Hs; reflexivity|].
  split; [exact HF|].
  split; [apply in_or_app; right; exact Hin|].
  split; [exact Hrows|].
  exists ([ EvUnzipUrl Urls_fridge_objects_path true;
            EvUnzipUrl Urls_fridge_objects_watermark_path true ] ++ front),
         tail.
  split; [rewrite Etr, <- app_assoc; reflexivity | exact Hpost].
Qed.

(** *** The phases, whether or not the run completes *)

Lemma traces_then {A B} (m : M A) (k : A -> M B) (Q1 Q2 : list Event -> Prop) :
  traces m (fun _ tr => Q1 tr) -> (forall a, traces (k a) (fun _ tr => Q2 tr)) ->
  Q2 [] ->
  traces (bind m k) (fun _ tr => exists t1 t2, tr = t1 ++ t2 /\ Q1 t1 /\ Q2 t2).
Proof.
  intros Hm Hk Hnil.
  eapply traces_conseq;
    [exact (@traces_bind _ _ _ m k (fun _ tr => Q1 tr)
                         (fun _ _ tr => Q2 tr) Hm Hk)|].
  intros r tr [[e [_ H]] | [a [tr1 [tr2 [-> [H1 H2]]]]]].
  - exists tr, []. rewrite app_nil_r. auto.
  - exists tr1, tr2. auto.
Qed.

Lemma cell_3_loading : all_events loading cell_3.
Proof.
  assert (HR : forall e, loading (EvRaised e)) by (intros; exact I).
  unfold cell_3, unzip_url. all_events_with HR.
Qed.

Lemma update_parameters_grid sw kwargs :
  all_events grid_building (update_parameters sw kwargs).
Proof.
  assert (HR : forall e, grid_building (EvRaised e)) by (intros; exact I).
  unfold update_parameters. all_events_with HR.
Qed.

Lemma run_sweeping sw datasets reps :
  all_events sweeping (ParameterSweeper_run sw datasets reps retrieval_rank).
Proof.
  assert (HR : forall e, sweeping (EvRaised e)) by (intros; exact I).
  unfold ParameterSweeper_run.
  apply all_bind; [|intros res; apply all_ret].
  apply all_for_list. intros rep.
  apply all_for_list. intros [i perm].
  apply all_bind; [apply all_log; exact I|]. intros u.
  apply all_for_list. intros dataset.
  apply all_bind; [apply all_call; [exact HR | exact I]|].
  intros [learn duration].
  apply all_bind; [apply all_log; exact I|]. intros u'.
  apply all_bind; [|intros metric; apply all_ret].
  unfold retrieval_rank, comparative_set_builder, compute_features_learner,
    compute_distances, positive_image_ranks.
  all_events_with HR.
Qed.

Lemma post_process_post df : all_events post_processing (post_process df).
Proof.
  assert (HR : forall e, post_processing (EvRaised e)) by (intros; exact I).
  unfold post_process, cell_7, cell_8, cell_9, cell_10, cell_11, cell_12,
    clean_sweeper_df, plot_bar, plot_sweeper_df, glue.
  all_events_with HR.
Qed.

Lemma notebook_phases (w : World) :
  exists loads grid sweep post,
    events (snd (notebook w)) = events w ++ loads ++ grid ++ sweep ++ post /\
    Forall loading loads /\ Forall grid_building grid /\
    Forall sweeping sweep /\ Forall post_processing post.
Proof.
  assert (H : traces notebook
                (fun _ tr => exists t0 t', tr = t0 ++ t' /\ Forall loading t0 /\
                   exists t1 t'', t' = t1 ++ t'' /\ Forall grid_building t1 /\
                     exists t2 t3, t'' = t2 ++ t3 /\ Forall sweeping t2 /\
                       Forall post_processing t3)).
  { unfold notebook, notebook_with, cell_5.
    apply traces_then; [apply cell_3_loading| |].
    - intros paths. rewrite bind_ret_l. unfold cell_6_with.
      eapply traces_conseq.
      + apply traces_then
          with (Q1 := fun t => exists t1 t2, t = t1 ++ t2 /\
                         Forall grid_building t1 /\ Forall sweeping t2)
               (Q2 := Forall post_processing).
        * apply traces_then; [apply update_parameters_grid| |constructor].
          intros sw. apply all_bind; [apply run_sweeping|].
          intros df. apply all_ret.
        * intros df. apply post_process_post.
        * constructor.
      + cbv beta. intros _ tr (t12 & t3 & -> & (t1 & t2 & -> & H1 & H2) & H3).
        exists t1, (t2 ++ t3). rewrite <- app_assoc.
        split; [reflexivity|]. split; [exact H1|].
        exists t2, t3. auto.
    - exists [], []. split; [reflexivity|]. split; [constructor|].
      exists [], []. split; [reflexivity|]. repeat split; constructor. }
  destruct (H w) as [tr [E (t0 & t' & -> & H0 & t1 & t'' & -> & H1 & t2 & t3 &
                           -> & H2 & H3)]].
  exists t0, t1, t2, t3. auto.
Qed.

End CellFacts.

(* ------------------------------------------------------------------ *)
(** ** The frame of results and its aggregations *)

Module FrameFacts.

Lemma index_of_in c cols : In c cols -> exists j, pd.index_of c cols = Some j.
Proof.
  induction cols as [|c' r IH]; simpl; [contradiction|].
  intros Hin. destruct (String.eqb_spec c' c) as [_|Hne]; [eauto|].
  destruct Hin as [Heq|Hin]; [contradiction|].
  destruct (IH Hin) as [j ->]. simpl. eauto.
Qed.

Lemma getattr_combine c cols : forall vals,
  In c cols -> length vals = length cols ->
  exists v, pd.getattr (combine cols vals) c = Ok v.
Proof.
  induction cols as [|c' r IH]; intros vals Hin Hlen; [contradiction|].
  destruct vals as [|v vs]; [discriminate|]. simpl.
  destruct (String.eqb_spec c' c) as [_|Hne]; [eauto|].
  destruct Hin as [Heq|Hin]; [contradiction|].
  apply IH; [exact Hin|]. simpl in Hlen. congruence.
Qed.

Lemma reduce_columns_length f n vals : length (pd.reduce_columns f n vals) = n.
Proof. unfold pd.reduce_columns. rewrite length_map, length_seq. reflexivity. Qed.

Lemma mean_ok levels df :
  2 <= nlevels df -> levels <> [] ->
  Forall (fun l => l < nlevels df) levels ->
  exists m, pd.mean levels df = Ok m /\
            nlevels m = length levels /\ columns m = columns df.
Proof.
  intros Hmulti Hne H. unfold pd.mean.
  assert (Hm : Nat.leb 2 (nlevels df) = true) by (apply Nat.leb_le; exact Hmulti).
  assert (Hb : forallb (fun l => Nat.ltb l (nlevels df)) levels = true).
  { apply forallb_forall. rewrite Forall_forall in H.
    intros l Hl. apply Nat.ltb_lt, H, Hl. }
  rewrite Hm. destruct levels as [|l r]; [contradiction|].
  rewrite Hb. eexists. split; [reflexivity|]. split; reflexivity.
Qed.

Lemma mean_too_many_levels levels df :
  2 <= nlevels df ->
  Exists (fun l => nlevels df <= l) levels ->
  pd.mean levels df = Raise IndexError.
Proof.
  intros Hmulti H. unfold pd.mean.
  assert (Hm : Nat.leb 2 (nlevels df) = true) by (apply Nat.leb_le; exact Hmulti).
  assert (Hb : forallb (fun l => Nat.ltb l (nlevels df)) levels = false).
  { apply Exists_exists in H. destruct H as [l [Hin Hl]].
    destruct (forallb _ levels) eqn:E; [|reflexivity].
    rewrite forallb_forall in E. specialize (E l Hin).
    apply Nat.ltb_lt in E. lia. }
  rewrite Hm. destruct levels as [|l r]; [inversion H|].
  rewrite Hb. reflexivity.
Qed.

(** On a plain index, several levels are refused. *)
Lemma mean_plain_several l1 l2 more df :
  nlevels df <= 1 ->
  pd.mean (l1 :: l2 :: more) df =
  Raise (ValueError "multiple levels only valid with MultiIndex").
Proof.
  intros Hplain. unfold pd.mean.
  assert (Hm : Nat.leb 2 (nlevels df) = false) by (apply Nat.leb_gt; lia).
  rewrite Hm. reflexivity.
Qed.

(** On a plain index, a level other than 0 is refused. *)
Lemma mean_plain_positive l df :
  nlevels df <= 1 -> 0 < l ->
  pd.mean [l] df =
  Raise (ValueError "level > 0 or level < -1 only valid with MultiIndex").
Proof.
  intros Hplain Hl. unfold pd.mean.
  assert (Hm : Nat.leb 2 (nlevels df) = false) by (apply Nat.leb_gt; lia).
  assert (H0 : Nat.eqb l 0 = false) by (apply Nat.eqb_neq; lia).
  rewrite Hm, H0. reflexivity.
Qed.

Lemma getitem_ok df c : In c (columns df) -> exists s, pd.getitem df c = Ok s.
Proof.
  intros H. unfold pd.getitem.
  destruct (index_of_in _ _ H) as [j ->]. eauto.
Qed.

Lemma aggregations_ok df :
  nlevels df = 3 -> In "rank" (columns df) -> In "duration" (columns df) ->
  exists m12 s12 m1 s1 mx mn,
    pd.mean [1; 2] df = Ok m12 /\ nlevels m12 = 2 /\
    pd.getitem m12 "rank" = Ok s12 /\
    pd.mean [1] df = Ok m1 /\ nlevels m1 = 1 /\
    pd.getitem m1 "rank" = Ok s1 /\
    pd.getattr (pd.max df) "duration" = Ok mx /\
    pd.getattr (pd.min df) "duration" = Ok mn.
Proof.
  intros Hn Hr Hd.
  destruct (@mean_ok [1; 2] df) as [m12 [E12 [N12 C12]]].
  { lia. }
  { discriminate. }
  { rewrite Hn. repeat constructor. }
  destruct (@mean_ok [1] df) as [m1 [E1 [N1 C1]]].
  { lia. }
  { discriminate. }
  { rewrite Hn. repeat constructor. }
  destruct (@getitem_ok m12 "rank") as [s12 Es12]; [rewrite C12; exact Hr|].
  destruct (@getitem_ok m1 "rank") as [s1 Es1]; [rewrite C1; exact Hr|].
  destruct (@getattr_combine "duration" (columns df)
              (pd.reduce_columns pd.nanmax (length (columns df))
                                 (map snd (rows df))) Hd)
    as [mx Emx]; [apply reduce_columns_length|].
  destruct (@getattr_combine "duration" (columns df)
              (pd.reduce_columns pd.nanmin (length (columns df))
                                 (map snd (rows df))) Hd)
    as [mn Emn]; [apply reduce_columns_length|].
  exists m12, s12, m1, s1, mx, mn. repeat split; assumption.
Qed.

End FrameFacts.

(* ------------------------------------------------------------------ *)
(** ** The notebook as a whole *)

Lemma sweep_keys_shape perms datasets reps k :
  In k (sweep_keys perms datasets reps) ->
  exists rep perm dataset,
    k = [LInt rep; LPerm perm; LStr dataset] /\
    rep < reps /\ In perm perms /\ In dataset datasets.
Proof.
  unfold sweep_keys. intros H.
  apply in_flat_map in H. destruct H as [rep [Hrep H]].
  apply in_flat_map in H. destruct H as [perm [Hperm H]].
  apply in_map_iff in H. destruct H as [dataset [<- Hds]].
  apply in_seq in Hrep.
  exists rep, perm, dataset. repeat split; try assumption. lia.
Qed.

Lemma sweep_frame_rows metric perms datasets reps df :
  sweep_frame metric perms datasets reps df ->
  length (rows df) = length (sweep_keys perms datasets reps).
Proof.
  intros (_ & _ & Hk & _). rewrite <- Hk, length_map. reflexivity.
Qed.

(** C2.  Every run of the notebook, complete or not, writes its events
    in four phases, in this order: loading the datasets, building the
    grid, sweeping (training and evaluating), post-processing.  A run
    that completes goes through exactly these steps: the two datasets are
    loaded (two calls of [unzip_url], giving [DATA_PATHS]); the grid is
    built by [update_parameters]; then, for each repetition, each
    permutation and each dataset, a model is trained and evaluated with
    the metric function, which is [retrieval_rank]; the results are one
    frame, whose rows are, point by point of the sweep, the value that
    [retrieval_rank] returned on the learner trained at this point and
    the duration of that training; and only then come the post-processing
    steps, which end the run: [clean_sweeper_df] is given that frame, and
    what it returns is what is averaged, plotted ([plot_bar] on "rank" of
    the mean over levels 1 and 2, [plot_sweeper_df] on the mean over
    level 1, sorted by "rank") and glued (its length, the "rank" means as
    a list, the largest and the smallest "duration"). *)
Theorem notebook_pipeline_order {C : Collaborators} (w : World) :
  (exists loads grid sweep post,
     events (snd (notebook w)) = events w ++ loads ++ grid ++ sweep ++ post /\
     Forall loading loads /\ Forall grid_building grid /\
     Forall sweeping sweep /\ Forall post_processing post) /\
  (fst (notebook w) = Ok tt ->
   exists p1 s1 p2 s2 tr df,
     ext_unzip_url Urls_fridge_objects_path true (ext w) = (Ok p1, s1) /\
     ext_unzip_url Urls_fridge_objects_watermark_path true s1 = (Ok p2, s2) /\
     events (snd (notebook w)) = events w ++ tr /\
     steps tr =
       [ LoadDataset Urls_fridge_objects_path;
         LoadDataset Urls_fridge_objects_watermark_path;
         BuildGrid cell_6_kwargs ] ++
       sweep_steps notebook_grid [p1; p2] REPS ++ post_steps /\
     length (filter is_load (steps tr)) = 2 /\
     sweep_frame "rank" notebook_grid [p1; p2] REPS df /\
     In (EvCleanSweeperDf df) tr /\
     Forall2 sweep_row (sweep_points notebook_grid [p1; p2] REPS) (rows df) /\
     exists front tail, tr = front ++ tail /\ post_processed df tail).
Proof.
  split; [apply notebook_phases|].
  intros Hok.
  destruct (notebook_returns w Hok)
    as (p1 & s1 & p2 & s2 & tr & df & E1 & E2 & E & Hs & HF & Hin & Hrest).
  exists p1, s1, p2, s2, tr, df.
  split; [exact E1|]. split; [exact E2|].
  split; [exact E|]. split; [exact Hs|].
  split; [rewrite Hs; vm_compute; reflexivity|].
  split; [exact HF|]. split; [exact Hin | exact Hrest].
Qed.

(** C3.  The frame that the sweep of cell 6 returns has a three-level
    index: every key is (repetition, permutation, dataset), in that
    order of levels; its columns are "rank" and "duration", one scalar
    each per row.  On any frame with three index levels and these two
    columns, the aggregations of the notebook are defined:
    [mean(level=(1,2))], [mean(level=(1))], the selection of "rank" from
    either, and "duration" of [max()] and [min()].  With fewer than three
    levels, [mean(level=(1,2))] raises: IndexError on an index of two
    levels, ValueError on a plain index, where [mean(level=(1))] is a
    ValueError too. *)
Theorem sweep_frame_three_level_index :
  (forall (C : Collaborators) (paths : list string) (w : World) df,
     fst (cell_6 (ParameterSweeper_init "rank") paths w) = Ok df ->
     nlevels df = 3 /\
     columns df = ["rank"; "duration"] /\
     Forall (fun r => length (snd r) = 2) (rows df) /\
     map fst (rows df) = sweep_keys notebook_grid paths REPS /\
     forall k, In k (map fst (rows df)) ->
       exists rep perm dataset,
         k = [LInt rep; LPerm perm; LStr dataset] /\
         rep < REPS /\ In perm notebook_grid /\ In dataset paths) /\
  (forall df,
     nlevels df = 3 -> In "rank" (columns df) -> In "duration" (columns df) ->
     exists m12 s12 m1 s1 mx mn,
       pd.mean [1; 2] df = Ok m12 /\ nlevels m12 = 2 /\
       pd.getitem m12 "rank" = Ok s12 /\
       pd.mean [1] df = Ok m1 /\ nlevels m1 = 1 /\
       pd.getitem m1 "rank" = Ok s1 /\
       pd.getattr (pd.max df) "duration" = Ok mx /\
       pd.getattr (pd.min df) "duration" = Ok mn) /\
  (forall df, nlevels df = 2 -> pd.mean [1; 2] df = Raise IndexError) /\
  (forall df, nlevels df <= 1 ->
     pd.mean [1; 2] df =
       Raise (ValueError "multiple levels only valid with MultiIndex") /\
     pd.mean [1] df =
       Raise (ValueError
                "level > 0 or level < -1 only valid with MultiIndex")).
Proof.
  split; [|split; [|split]].
  - intros C paths w df Hok.
    destruct (cell_6_returns (ParameterSweeper_init "rank") paths w)
      as [tr [_ H]].
    destruct (H df Hok) as [_ (Hn & Hc & Hk & Hl)].
    split; [exact Hn|]. split; [exact Hc|]. split; [exact Hl|].
    split; [exact Hk|].
    intros k Hin. apply sweep_keys_shape. rewrite Hk in Hin. exact Hin.
  - exact FrameFacts.aggregations_ok.
  - intros df Hn. apply FrameFacts.mean_too_many_levels; [lia|].
    apply Exists_cons_tl, Exists_cons_hd. lia.
  - intros df Hn. split.
    + apply FrameFacts.mean_plain_several. exact Hn.
    + apply FrameFacts.mean_plain_positive; [exact Hn | lia].
Qed.

(** C4.  Cell 6 sweeps exactly four parameters: three learning rates,
    two image sizes, one number of epochs, one dropout.  The grid has
    3 x 2 x 1 x 1 = 6 permutations.  With [REPS = 3], a run that
    completes trains, in each of the 3 repetitions, every permutation
    once on each of the two datasets, and evaluates each trained model
    with the rank metric: 36 trainings, 36 evaluations, 36 rows.  The
    first progress line is the one cell 6 recorded. *)
Theorem sweep_grid_six_permutations_three_repetitions :
  cell_6_kwargs =
    [ ("learning_rate",
       [PFloat (1 # 1000); PFloat (1 # 10000); PFloat (1 # 100000)]);
      ("im_size", [PInt 300; PInt 500]);
      ("epochs", [PInt 16]);
      ("dropout", [PInt 0]) ] /\
  length notebook_grid = 3 * 2 * 1 * 1 /\
  map swept notebook_grid =
    [ [Some (PFloat (1 # 1000)); Some (PInt 300); Some (PInt 16); Some (PInt 0)];
      [Some (PFloat (1 # 1000)); Some (PInt 500); Some (PInt 16); Some (PInt 0)];
      [Some (PFloat (1 # 10000)); Some (PInt 300); Some (PInt 16); Some (PInt 0)];
      [Some (PFloat (1 # 10000)); Some (PInt 500); Some (PInt 16); Some (PInt 0)];
      [Some (PFloat (1 # 100000)); Some (PInt 300); Some (PInt 16); Some (PInt 0)];
      [Some (PFloat (1 # 100000)); Some (PInt 500); Some (PInt 16); Some (PInt 0)] ] /\
  REPS = 3 /\
  progress_line 0 (length notebook_grid) 0 REPS = cell_6_recorded_stdout /\
  forall (C : Collaborators) (w : World),
    fst (notebook w) = Ok tt ->
    exists p1 s1 p2 s2 tr df,
      ext_unzip_url Urls_fridge_objects_path true (ext w) = (Ok p1, s1) /\
      ext_unzip_url Urls_fridge_objects_watermark_path true s1 = (Ok p2, s2) /\
      events (snd (notebook w)) = events w ++ tr /\
      filter is_training (steps tr) =
        flat_map (fun _ : nat =>
          flat_map (fun perm => [TrainModel p1 perm; TrainModel p2 perm])
                   notebook_grid)
          (seq 0 REPS) /\
      length (filter is_training (steps tr)) = 36 /\
      length (filter is_evaluation (steps tr)) = 36 /\
      length (filter is_rank_metric (steps tr)) = 36 /\
      hd_error (filter is_print (steps tr)) =
        Some (PrintLine cell_6_recorded_stdout) /\
      In (EvCleanSweeperDf df) tr /\
      map fst (rows df) = sweep_keys notebook_grid [p1; p2] REPS /\
      length (rows df) = 36.
Proof.
  repeat (split; [reflexivity|]).
  intros C w Hok.
  destruct (notebook_returns w Hok)
    as (p1 & s1 & p2 & s2 & tr & df & E1 & E2 & E & Hs & HF & Hin & _).
  exists p1, s1, p2, s2, tr, df.
  split; [exact E1|]. split; [exact E2|].
  split; [exact E|]. rewrite Hs.
  repeat (split; [vm_compute; reflexivity|]).
  split; [exact Hin|].
  split; [apply HF|].
  rewrite (sweep_frame_rows HF). vm_compute. reflexivity.
Qed.

(** C5.  Nothing in the notebook handles an exception.  Any exception
    raised while [retrieval_rank] runs is its outcome.  For every
    implementation of [sweeper.run]: an exception it raises is the
    outcome of cell 6, and of the notebook, which stops there, in the
    state in which the exception was raised.  The error recorded for
    cell 6 is KeyboardInterrupt. *)
Theorem exceptions_propagate_unhandled :
  (forall (C : Collaborators) (learn : Learner) (w : World) tr e,
     events (snd (retrieval_rank learn w)) = events w ++ tr ->
     In (EvRaised e) tr ->
     fst (retrieval_rank learn w) = Raise e) /\
  (forall (C : Collaborators) run sweeper paths (w : World) e w',
     run (updated sweeper cell_6_kwargs) paths REPS retrieval_rank
         (mkWorld (events w ++ [EvUpdateParameters cell_6_kwargs]) (ext w))
       = (Raise e, w') ->
     cell_6_with run sweeper paths w = (Raise e, w')) /\
  (forall (C : Collaborators) run (w : World) p1 s1 p2 s2 e w',
     ext_unzip_url Urls_fridge_objects_path true (ext w) = (Ok p1, s1) ->
     ext_unzip_url Urls_fridge_objects_watermark_path true s1 = (Ok p2, s2) ->
     run (updated (ParameterSweeper_init "rank") cell_6_kwargs) [p1; p2]
         REPS retrieval_rank
         (mkWorld (events w ++
                     [ EvUnzipUrl Urls_fridge_objects_path true;
                       EvUnzipUrl Urls_fridge_objects_watermark_path true;
                       EvUpdateParameters cell_6_kwargs ]) s2)
       = (Raise e, w') ->
     notebook_with run w = (Raise e, w')) /\
  exn_name KeyboardInterrupt = cell_6_recorded_ename.
Proof.
  split; [|split; [|split]].
  - intros C learn w tr e E Hin.
    destruct (retrieval_rank_propagates learn w) as [tr' [E' H]].
    rewrite E in E'. apply app_inv_head in E'. subst tr'.
    eapply unhandled_raised; [exact H | exact Hin].
  - intros C run sweeper paths w e w' Hrun.
    unfold cell_6_with, update_parameters.
    erewrite bind_ok; [|reflexivity].
    erewrite bind_raise; [reflexivity | exact Hrun].
  - intros C run w p1 s1 p2 s2 e w' H1 H2 Hrun.
    unfold notebook_with, cell_3, cell_5, unzip_url.
    erewrite bind_ok.
    2:{ erewrite bind_ok; [|apply call_ok; exact H1].
        erewrite bind_ok; [|apply call_ok; exact H2].
        reflexivity. }
    rewrite bind_ret_l.
    erewrite bind_raise; [reflexivity|].
    unfold cell_6_with, update_parameters.
    erewrite bind_ok; [|reflexivity].
    erewrite bind_raise; [reflexivity|].
    cbn [events ext]. rewrite <- !app_assoc. exact Hrun.
  - reflexivity.
Qed.

(* ------------------------------------------------------------------ *)
(** ** The statements at work on the small collaborators *)

(** C1 as first stated ("for every learner ... returns the median") does
    not hold: with embeddings of 3 entries the assertion stops
    [retrieval_rank], which returns no median at all. *)
Lemma retrieval_rank_raises_on_narrow_features :
  fst (@retrieval_rank Demo.narrow (Demo.a_learner 3)
         (Demo.start Demo.narrow 0)) = Raise AssertionError /\
  forall m,
    fst (@retrieval_rank Demo.narrow (Demo.a_learner 3)
           (Demo.start Demo.narrow 0)) <> Ok m.
Proof.
  assert (H : fst (@retrieval_rank Demo.narrow (Demo.a_learner 3)
                     (Demo.start Demo.narrow 0)) = Raise AssertionError)
    by (vm_compute; reflexivity).
  split; [exact H|]. intros m Hm. rewrite H in Hm. discriminate Hm.
Qed.

Lemma retrieval_rank_is_median_of_ranks_witness :
  fst (@retrieval_rank Demo.working (Demo.a_learner 512)
         (Demo.start Demo.working 0)) = Ok (np.median [1; 3; 5]%Z).
Proof.
  rewrite (@retrieval_rank_is_median_of_ranks Demo.working
             (Demo.a_learner 512) (Demo.start Demo.working 0)
             [0; 1; 2] 1 2
             [("a.jpg", repeat (0 # 1)%Q 512); ("b.jpg", repeat (0 # 1)%Q 7)]
             (repeat (0 # 1)%Q 512) 2 5 [1; 3; 5]%Z 6);
    reflexivity.
Defined.

Lemma retrieval_rank_asserts_first_feature_witness :
  fst (@retrieval_rank Demo.narrow (Demo.a_learner 3)
         (Demo.start Demo.narrow 0)) = Raise AssertionError /\
  fst (@retrieval_rank Demo.working (Demo.a_learner 512)
         (Demo.start Demo.working 0)) = Ok (Fin (3 # 1)).
Proof.
  split.
  - rewrite (proj1 (@retrieval_rank_asserts_first_feature Demo.narrow
                      (Demo.a_learner 3) (Demo.start Demo.narrow 0)
                      [0; 1; 2] 1 2 "a.jpg" (repeat (0 # 1)%Q 3)
                      [("b.jpg", repeat (0 # 1)%Q 7)] 2
                      eq_refl eq_refl eq_refl)).
    + reflexivity.
    + simpl. discriminate.
  - rewrite (proj2 (@retrieval_rank_asserts_first_feature Demo.working
                      (Demo.a_learner 512) (Demo.start Demo.working 0)
                      [0; 1; 2] 1 2 "a.jpg" (repeat (0 # 1)%Q 512)
                      [("b.jpg", repeat (0 # 1)%Q 7)] 2
                      eq_refl eq_refl eq_refl)).
    + reflexivity.
    + reflexivity.
Defined.

Lemma retrieval_rank_fixed_parameters_witness :
  exists tr,
    events (snd (@retrieval_rank Demo.working (Demo.a_learner 512)
                   (Demo.start Demo.working 0))) =
    events (Demo.start Demo.working 0) ++
      @EvComparativeSetBuilder Demo.working ["a.jpg"; "b.jpg"] 1000 99 ::
      @EvComputeFeaturesLearner Demo.working ["a.jpg"; "b.jpg"] Valid
        (Demo.a_learner 512) 2 :: tr.
Proof.
  apply (proj1 (proj2 (proj2 (@retrieval_rank_fixed_parameters Demo.working
                                (Demo.a_learner 512)
                                (Demo.start Demo.working 0))))
           [0; 1; 2] 1 2);
    reflexivity.
Defined.

Lemma notebook_pipeline_order_witness :
  fst (@notebook Demo.working (Demo.start Demo.working 0)) = Ok tt /\
  exists p1 s1 p2 s2 tr df,
    @ext_unzip_url Demo.working "fridgeObjects.zip" true 0 = (Ok p1, s1) /\
    @ext_unzip_url Demo.working "fridgeObjectsWatermark.zip" true s1
      = (Ok p2, s2) /\
    events (snd (@notebook Demo.working (Demo.start Demo.working 0))) =
      events (Demo.start Demo.working 0) ++ tr /\
    steps tr =
      [ LoadDataset "fridgeObjects.zip";
        LoadDataset "fridgeObjectsWatermark.zip";
        BuildGrid cell_6_kwargs ] ++
      sweep_steps notebook_grid [p1; p2] REPS ++ post_steps /\
    length (filter is_load (steps tr)) = 2 /\
    sweep_frame "rank" notebook_grid [p1; p2] REPS df /\
    In (EvCleanSweeperDf df) tr /\
    Forall2 (@sweep_row Demo.working)
            (sweep_points notebook_grid [p1; p2] REPS) (rows df) /\
    exists front tail,
      tr = front ++ tail /\ @post_processed Demo.working df tail.
Proof.
  split.
  - vm_compute. reflexivity.
  - apply (proj2 (@notebook_pipeline_order Demo.working
                    (Demo.start Demo.working 0))).
    vm_compute. reflexivity.
Defined.

Lemma sweep_frame_three_level_index_witness :
  (exists df,
     fst (@cell_6 Demo.working (ParameterSweeper_init "rank") ["a"; "b"]
            (Demo.start Demo.working 0)) = Ok df /\
     nlevels df = 3 /\ columns df = ["rank"; "duration"]) /\
  (exists m12,
     pd.mean [1; 2]
       (mkDF 3 ["rank"; "duration"]
             [([LInt 0; LPerm []; LStr "a"], [Fin (1 # 1); Fin (2 # 1)])])
     = Ok m12) /\
  pd.mean [1; 2]
    (mkDF 2 ["rank"; "duration"]
          [([LPerm []; LStr "a"], [Fin (1 # 1); Fin (2 # 1)])])
  = Raise IndexError /\
  pd.mean [1; 2]
    (mkDF 1 ["rank"; "duration"] [([LStr "a"], [Fin (1 # 1); Fin (2 # 1)])])
  = Raise (ValueError "multiple levels only valid with MultiIndex").
Proof.
  split; [|split; [|split]].
  - destruct (fst (@cell_6 Demo.working (ParameterSweeper_init "rank")
                     ["a"; "b"] (Demo.start Demo.working 0))) as [df|e] eqn:E.
    + exists df. split; [reflexivity|].
      destruct (proj1 sweep_frame_three_level_index Demo.working ["a"; "b"]
                  (Demo.start Demo.working 0) df E) as (Hn & Hc & _).
      split; assumption.
    + exfalso. vm_compute in E. discriminate E.
  - destruct (proj1 (proj2 sweep_frame_three_level_index)
                (mkDF 3 ["rank"; "duration"]
                   [([LInt 0; LPerm []; LStr "a"], [Fin (1 # 1); Fin (2 # 1)])]))
      as (m12 & _ & _ & _ & _ & _ & H & _).
    + reflexivity.
    + left. reflexivity.
    + right. left. reflexivity.
    + exists m12. exact H.
  - apply (proj1 (proj2 (proj2 sweep_frame_three_level_index))). reflexivity.
  - apply (proj2 (proj2 (proj2 sweep_frame_three_level_index))). simpl. lia.
Defined.

Lemma sweep_grid_six_permutations_three_repetitions_witness :
  exists p1 s1 p2 s2 tr df,
    @ext_unzip_url Demo.working "fridgeObjects.zip" true 0 = (Ok p1, s1) /\
    @ext_unzip_url Demo.working "fridgeObjectsWatermark.zip" true s1
      = (Ok p2, s2) /\
    events (snd (@notebook Demo.working (Demo.start Demo.working 0))) =
      events (Demo.start Demo.working 0) ++ tr /\
    filter is_training (steps tr) =
      flat_map (fun _ : nat =>
        flat_map (fun perm => [TrainModel p1 perm; TrainModel p2 perm])
                 notebook_grid)
        (seq 0 REPS) /\
    length (filter is_training (steps tr)) = 36 /\
    length (filter is_evaluation (steps tr)) = 36 /\
    length (filter is_rank_metric (steps tr)) = 36 /\
    hd_error (filter is_print (steps tr)) =
      Some (PrintLine cell_6_recorded_stdout) /\
    In (EvCleanSweeperDf df) tr /\
    map fst (rows df) = sweep_keys notebook_grid [p1; p2] REPS /\
    length (rows df) = 36.
Proof.
  apply (proj2 (proj2 (proj2 (proj2 (proj2
           sweep_grid_six_permutations_three_repetitions))))
           Demo.working (Demo.start Demo.working 0)).
  vm_compute. reflexivity.
Defined.

Lemma exceptions_propagate_unhandled_witness :
  fst (@retrieval_rank Demo.narrow (Demo.a_learner 3)
         (Demo.start Demo.narrow 0)) = Raise AssertionError /\
  fst (@cell_6 Demo.interrupted (ParameterSweeper_init "rank") ["a"; "b"]
         (Demo.start Demo.interrupted 0)) = Raise KeyboardInterrupt /\
  fst (@notebook Demo.interrupted (Demo.start Demo.interrupted 0))
    = Raise KeyboardInterrupt.
Proof.
  split; [|split].
  - eapply (proj1 exceptions_propagate_unhandled Demo.narrow).
    + vm_compute. reflexivity.
    + right. right. left. reflexivity.
  - unfold cell_6.
    erewrite (proj1 (proj2 exceptions_propagate_unhandled) Demo.interrupted);
      [reflexivity|].
    vm_compute. reflexivity.
  - unfold notebook.
    erewrite (proj1 (proj2 (proj2 exceptions_propagate_unhandled))
                Demo.interrupted);
      [reflexivity | reflexivity | reflexivity |].
    vm_compute. reflexivity.
Defined.

(* ------------------------------------------------------------------ *)
(** ** More on the metric function: edges and failures *)

Section MetricEdges.
Context {C : Collaborators}.

(** X1.  [learn.model[1][-2]] exists exactly when the model has a second
    child with at least two layers, and is then the last but one layer of
    that child. *)
Theorem penultimate_layer_is_last_but_one (learn : Learner) (layer : Layer) :
  penultimate_layer learn = Some layer <->
  exists body head rest pre last,
    learn_model learn = body :: head :: rest /\ head = pre ++ [layer; last].
Proof. exact (penultimate_layer_spec learn layer). Qed.

(** X2.  Without a layer [model[1][-2]], [retrieval_rank] raises
    IndexError, after the comparative sets were built and before any
    feature is computed. *)
Theorem retrieval_rank_without_embedding_layer
    (learn : Learner) (w : World) sets s1 :
  ext_comparative_set_builder (valid_ds (learn_data learn)) 1000 99 (ext w)
    = (Ok sets, s1) ->
  penultimate_layer learn = None ->
  retrieval_rank learn w =
  (Raise IndexError,
   mkWorld (events w ++
              [ EvComparativeSetBuilder (valid_ds (learn_data learn)) 1000 99;
                EvRaised IndexError ])
           s1).
Proof.
  intros Hb Hl. unfold retrieval_rank.
  erewrite bind_ok;
    [|unfold comparative_set_builder; apply call_ok; exact Hb].
  rewrite Hl. unfold index at 1. rewrite bind_raise_l.
  unfold raise. cbn [events ext]. rewrite <- app_assoc. reflexivity.
Qed.

(** X3.  On an empty feature dict, [retrieval_rank] raises IndexError
    (not AssertionError): taking the first entry fails before the
    assertion is evaluated; no distance and no rank is computed. *)
Theorem retrieval_rank_on_no_features
    (learn : Learner) (w : World) sets s1 layer s2 :
  ext_comparative_set_builder (valid_ds (learn_data learn)) 1000 99 (ext w)
    = (Ok sets, s1) ->
  penultimate_layer learn = Some layer ->
  ext_compute_features_learner (learn_data learn) Valid learn layer s1
    = (Ok [], s2) ->
  retrieval_rank learn w =
  (Raise IndexError,
   mkWorld (events w ++
              [ EvComparativeSetBuilder (valid_ds (learn_data learn)) 1000 99;
                EvComputeFeaturesLearner (learn_data learn) Valid learn layer;
                EvRaised IndexError ])
           s2).
Proof.
  intros Hb Hl Hf. unfold retrieval_rank.
  erewrite bind_ok;
    [|unfold comparative_set_builder; apply call_ok; exact Hb].
  rewrite Hl. unfold index at 1. rewrite bind_ret_l.
  erewrite bind_ok;
    [|unfold compute_features_learner; apply call_ok; simpl; exact Hf].
  simpl values. replace (py_getitem (@nil (list Q)) 0) with (@None (list Q))
    by reflexivity.
  unfold index. rewrite bind_raise_l.
  unfold raise. cbn [events ext]. rewrite <- !app_assoc. reflexivity.
Qed.

Lemma for_each_distances_raise features pre cs post e : forall w s3 s4,
  distances_on_each features pre (ext w) = (Ok tt, s3) ->
  ext_compute_distances cs features s3 = (Raise e, s4) ->
  for_each (pre ++ cs :: post) (fun c => compute_distances c features) w =
  (Raise e,
   mkWorld (events w ++
              map (fun c => EvComputeDistances c features) pre ++
              [EvComputeDistances cs features; EvRaised e]) s4).
Proof.
  induction pre as [|c r IH]; intros w s3 s4 Hpre Hcs; simpl in *.
  - inversion Hpre; subst.
    erewrite bind_raise; [reflexivity|].
    unfold compute_distances. apply call_raise. exact Hcs.
  - destruct (ext_compute_distances c features (ext w)) as [[u|e'] s'] eqn:E;
      [|discriminate].
    erewrite bind_ok; [|unfold compute_distances; apply call_ok; exact E].
    rewrite (IH _ s3 s4); [|exact Hpre|exact Hcs]. cbn [events ext].
    rewrite <- app_assoc. reflexivity.
Qed.

(** X4.  The loop over the comparative sets stops at the first set whose
    [compute_distances] raises: the sets after it are not touched,
    [positive_image_ranks] is not called, and the exception is the
    outcome of [retrieval_rank]. *)
Theorem retrieval_rank_stops_at_failing_set
    (learn : Learner) (w : World) pre cs post s1 layer features first
    s2 s3 e s4 :
  ext_comparative_set_builder (valid_ds (learn_data learn)) 1000 99 (ext w)
    = (Ok (pre ++ cs :: post), s1) ->
  penultimate_layer learn = Some layer ->
  ext_compute_features_learner (learn_data learn) Valid learn layer s1
    = (Ok features, s2) ->
  py_getitem (values features) 0 = Some first ->
  length first = 512 ->
  distances_on_each features pre s2 = (Ok tt, s3) ->
  ext_compute_distances cs features s3 = (Raise e, s4) ->
  retrieval_rank learn w =
  (Raise e,
   mkWorld
     (events w ++
        [ EvComparativeSetBuilder (valid_ds (learn_data learn)) 1000 99;
          EvComputeFeaturesLearner (learn_data learn) Valid learn layer ] ++
        map (fun c => EvComputeDistances c features) pre ++
        [ EvComputeDistances cs features; EvRaised e ])
     s4).
Proof.
  intros Hb Hl Hf Hfirst Hlen Hpre Hcs.
  unfold retrieval_rank.
  erewrite bind_ok;
    [|unfold comparative_set_builder; apply call_ok; exact Hb].
  rewrite Hl. unfold index at 1. rewrite bind_ret_l.
  erewrite bind_ok;
    [|unfold compute_features_learner; apply call_ok; simpl; exact Hf].
  rewrite Hfirst. unfold index. rewrite bind_ret_l.
  rewrite Hlen, Nat.eqb_refl. unfold assert. rewrite bind_ret_l.
  erewrite bind_raise;
    [|eapply for_each_distances_raise; [simpl; exact Hpre | exact Hcs]].
  cbn [events ext]. repeat rewrite <- app_assoc. reflexivity.
Qed.

End MetricEdges.

Module MedianOrder.

(** Two sorted lists with the same elements are the same list. *)
Lemma sorted_perm_eq (l1 : list Z) : forall l2,
  StronglySorted Z.le l1 -> StronglySorted Z.le l2 -> Permutation l1 l2 ->
  l1 = l2.
Proof.
  induction l1 as [|x r IH]; intros l2 H1 H2 Hp.
  - apply Permutation_nil in Hp. subst. reflexivity.
  - destruct l2 as [|y r2].
    { apply Permutation_sym, Permutation_nil in Hp. discriminate Hp. }
    inversion H1 as [|? ? Hs1 Ha1]; subst.
    inversion H2 as [|? ? Hs2 Ha2]; subst.
    assert (Hxy : x = y).
    { assert (Hy : In y (x :: r)).
      { apply Permutation_in with (l := y :: r2);
          [apply Permutation_sym, Hp | left; reflexivity]. }
      assert (Hx : In x (y :: r2)).
      { apply Permutation_in with (l := x :: r); [exact Hp | left; reflexivity]. }
      rewrite Forall_forall in Ha1, Ha2.
      destruct Hy as [Hy|Hy]; [congruence|].
      destruct Hx as [Hx|Hx]; [congruence|].
      specialize (Ha1 _ Hy). specialize (Ha2 _ Hx). lia. }
    subst y. f_equal. apply IH; try assumption.
    eapply Permutation_cons_inv. exact Hp.
Qed.

Lemma sort_perm_eq l l' : Permutation l l' -> np.sort l = np.sort l'.
Proof.
  intros Hp. apply sorted_perm_eq; try apply MedianFacts.sort_sorted.
  eapply perm_trans; [apply Permutation_sym, MedianFacts.sort_perm|].
  eapply perm_trans; [exact Hp | apply MedianFacts.sort_perm].
Qed.

Lemma sorted_nth_bounds lo hi ranks k :
  Forall (fun r => (lo <= r <= hi)%Z) ranks ->
  k < length ranks ->
  (lo <= nth k (np.sort ranks) 0 <= hi)%Z.
Proof.
  intros Hall Hk.
  assert (Hin : In (nth k (np.sort ranks) 0%Z) ranks).
  { apply Permutation_in with (l := np.sort ranks).
    - apply Permutation_sym, MedianFacts.sort_perm.
    - apply nth_In. rewrite MedianFacts.sort_length. exact Hk. }
  rewrite Forall_forall in Hall. apply Hall, Hin.
Qed.

Lemma median_bounds lo hi ranks :
  ranks <> [] ->
  Forall (fun r => (lo <= r <= hi)%Z) ranks ->
  exists q, np.median ranks = Fin q /\
            (inject_Z lo <= q)%Q /\ (q <= inject_Z hi)%Q.
Proof.
  intros Hne Hall. unfold np.median. rewrite MedianFacts.sort_length.
  destruct (length ranks) as [|n] eqn:Hlen.
  { destruct ranks; [contradiction | discriminate]. }
  assert (Hh : S n / 2 < length ranks).
  { rewrite Hlen. apply Nat.div_lt; lia. }
  assert (Hh' : S n / 2 - 1 < length ranks) by lia.
  pose proof (@sorted_nth_bounds lo hi ranks (S n / 2) Hall Hh) as Hb.
  pose proof (@sorted_nth_bounds lo hi ranks (S n / 2 - 1) Hall Hh') as Ha.
  destruct (Nat.even (S n)); eexists; (split; [reflexivity|]);
    unfold Qle, inject_Z; cbn [Qnum Qden]; lia.
Qed.

End MedianOrder.

(** X5.  The median of the ranks does not depend on the order in which
    the ranks are listed. *)
Theorem median_ignores_order (ranks ranks' : list Z) :
  Permutation ranks ranks' -> np.median ranks = np.median ranks'.
Proof.
  intros Hp. unfold np.median.
  rewrite (MedianOrder.sort_perm_eq Hp). reflexivity.
Qed.

Lemma median_ignores_order_witness :
  np.median [5; 1; 3]%Z = np.median [1; 3; 5]%Z.
Proof.
  apply median_ignores_order.
  apply perm_trans with (l' := [1; 5; 3]%Z).
  - apply perm_swap.
  - apply perm_skip, perm_swap.
Defined.

Section MetricValue.
Context {C : Collaborators}.

Lemma bind_raise_fst {A B} (m : M A) (k : A -> M B) w e :
  fst (m w) = Raise e -> fst (bind m k w) = Raise e.
Proof.
  unfold bind. destruct (m w) as [[a|e'] w']; simpl; [discriminate|].
  intros H. inversion H. reflexivity.
Qed.

Lemma for_each_distances_fail features sets : forall w e s',
  distances_on_each features sets (ext w) = (Raise e, s') ->
  fst (for_each sets (fun cs => compute_distances cs features) w) = Raise e.
Proof.
  induction sets as [|cs r IH]; intros w e s' H; simpl in *.
  - discriminate H.
  - destruct (ext_compute_distances cs features (ext w)) as [[u|e'] s1] eqn:E.
    + erewrite bind_ok; [|unfold compute_distances; apply call_ok; exact E].
      eapply IH. simpl. exact H.
    + inversion H; subst.
      apply bind_raise_fst. unfold compute_distances.
      erewrite call_raise; [reflexivity | exact E].
Qed.

(** When [retrieval_rank] returns, every stage before has returned. *)
Lemma retrieval_rank_inversion (learn : Learner) (w : World) m :
  fst (retrieval_rank learn w) = Ok m ->
  exists sets s1 layer features first s2 s3 ranks s4,
    ext_comparative_set_builder (valid_ds (learn_data learn)) 1000 99 (ext w)
      = (Ok sets, s1) /\
    penultimate_layer learn = Some layer /\
    ext_compute_features_learner (learn_data learn) Valid learn layer s1
      = (Ok features, s2) /\
    py_getitem (values features) 0 = Some first /\
    length first = 512 /\
    distances_on_each features sets s2 = (Ok tt, s3) /\
    ext_positive_image_ranks sets s3 = (Ok ranks, s4) /\
    m = np.median ranks.
Proof.
  unfold retrieval_rank.
  destruct (ext_comparative_set_builder (valid_ds (learn_data learn)) 1000 99
              (ext w)) as [[sets|e] s1] eqn:Hb.
  2:{ erewrite bind_raise;
        [discriminate | unfold comparative_set_builder; apply call_raise;
                        exact Hb]. }
  erewrite bind_ok;
    [|unfold comparative_set_builder; apply call_ok; exact Hb].
  destruct (penultimate_layer learn) as [layer|] eqn:Hl; unfold index at 1.
  2:{ rewrite bind_raise_l. discriminate. }
  rewrite bind_ret_l.
  destruct (ext_compute_features_learner (learn_data learn) Valid learn layer s1)
    as [[features|e] s2] eqn:Hf.
  2:{ erewrite bind_raise;
        [discriminate | unfold compute_features_learner; apply call_raise;
                        simpl; exact Hf]. }
  erewrite bind_ok;
    [|unfold compute_features_learner; apply call_ok; simpl; exact Hf].
  destruct (py_getitem (values features) 0) as [first|] eqn:Hfirst;
    unfold index.
  2:{ rewrite bind_raise_l. discriminate. }
  rewrite bind_ret_l.
  destruct (Nat.eqb_spec (length first) 512) as [Hlen|Hlen]; unfold assert.
  2:{ rewrite bind_raise_l. discriminate. }
  rewrite bind_ret_l.
  destruct (distances_on_each features sets s2) as [[u|e] s3] eqn:Hd.
  2:{ intros H. exfalso.
      erewrite bind_raise_fst in H; [discriminate H|].
      eapply for_each_distances_fail. simpl. exact Hd. }
  destruct u.
  erewrite bind_ok; [|apply for_each_distances_ok; simpl; exact Hd].
  destruct (ext_positive_image_ranks sets s3) as [[ranks|e] s4] eqn:Hr.
  2:{ erewrite bind_raise;
        [discriminate | unfold positive_image_ranks; apply call_raise;
                        simpl; exact Hr]. }
  erewrite bind_ok;
    [|unfold positive_image_ranks; apply call_ok; simpl; exact Hr].
  unfold ret. simpl. intros H. inversion H.
  exists sets, s1, layer, features, first, s2, s3, ranks, s4.
  repeat split; reflexivity || assumption.
Qed.

(** X6.  [retrieval_rank] returns a value only when every stage returned:
    the sets were built, the layer [model[1][-2]] exists, the features
    were computed and their first vector has 512 entries, the distances
    were computed on every set, and the ranks were given; the value is
    then the median of exactly those ranks. *)
Theorem retrieval_rank_returns_only_the_median
    (learn : Learner) (w : World) (m : npfloat) :
  fst (retrieval_rank learn w) = Ok m ->
  exists sets s1 layer features first s2 s3 ranks s4,
    ext_comparative_set_builder (valid_ds (learn_data learn)) 1000 99 (ext w)
      = (Ok sets, s1) /\
    penultimate_layer learn = Some layer /\
    ext_compute_features_learner (learn_data learn) Valid learn layer s1
      = (Ok features, s2) /\
    py_getitem (values features) 0 = Some first /\
    length first = 512 /\
    distances_on_each features sets s2 = (Ok tt, s3) /\
    ext_positive_image_ranks sets s3 = (Ok ranks, s4) /\
    m = np.median ranks.
Proof. apply retrieval_rank_inversion. Qed.

(** X7.  If [comparative_set_builder] gives at least one set whenever it
    is asked for some, and [positive_image_ranks] gives one rank per set,
    each between [lo] and [hi], then every value [retrieval_rank] returns
    is a number between [lo] and [hi], never nan. *)
Theorem retrieval_rank_within_rank_range
    (lo hi : Z) (learn : Learner) (w : World) (m : npfloat) :
  (forall ds n k s sets s',
     ext_comparative_set_builder ds n k s = (Ok sets, s') ->
     0 < n -> sets <> []) ->
  (forall sets s ranks s',
     ext_positive_image_ranks sets s = (Ok ranks, s') ->
     length ranks = length sets /\
     Forall (fun r => (lo <= r <= hi)%Z) ranks) ->
  fst (retrieval_rank learn w) = Ok m ->
  exists q, m = Fin q /\ (inject_Z lo <= q)%Q /\ (q <= inject_Z hi)%Q.
Proof.
  intros Hsets Hranks Hok.
  destruct (retrieval_rank_inversion learn w Hok)
    as (sets & s1 & layer & features & first & s2 & s3 & ranks & s4 &
        Hb & _ & _ & _ & _ & _ & Hr & ->).
  destruct (Hranks _ _ _ _ Hr) as [Hlen Hall].
  assert (Hne : sets <> []) by (apply (Hsets _ _ _ _ _ _ Hb); lia).
  apply MedianOrder.median_bounds; [|exact Hall].
  intros ->. destruct sets; [contradiction | discriminate Hlen].
Qed.

Lemma retrieval_rank_checked_distances learn :
  all_events distance_on_checked (retrieval_rank learn).
Proof.
  assert (HR : forall e, distance_on_checked (EvRaised e)) by (intros; exact I).
  unfold retrieval_rank.
  apply all_bind.
  { unfold comparative_set_builder. apply all_call; [exact HR | exact I]. }
  intros sets.
  apply all_bind; [apply all_index, HR|]. intros layer.
  apply all_bind.
  { unfold compute_features_learner. apply all_call; [exact HR | exact I]. }
  intros features.
  destruct (py_getitem (values features) 0) as [first|] eqn:Hfirst;
    unfold index.
  2:{ rewrite bind_raise_l. apply all_raise, HR. }
  rewrite bind_ret_l.
  destruct (Nat.eqb_spec (length first) 512) as [Hlen|Hlen]; unfold assert.
  2:{ rewrite bind_raise_l. apply all_raise, HR. }
  rewrite bind_ret_l.
  apply all_bind.
  { apply all_for_each. intros cs. unfold compute_distances.
    apply all_call; [exact HR|]. simpl. eauto. }
  intros u. apply all_bind.
  { unfold positive_image_ranks. apply all_call; [exact HR | exact I]. }
  intros ranks. apply all_ret.
Qed.

(** X8.  In every run of [retrieval_rank], complete or not, each call of
    [compute_distances] is given a feature dict whose first vector has
    512 entries: no distance is computed on unchecked features. *)
Theorem distances_only_on_checked_features
    (learn : Learner) (w : World) tr cs features :
  events (snd (retrieval_rank learn w)) = events w ++ tr ->
  In (EvComputeDistances cs features) tr ->
  exists first,
    py_getitem (values features) 0 = Some first /\ length first = 512.
Proof.
  intros E Hin.
  destruct (retrieval_rank_checked_distances learn w) as [tr' [E' H]].
  rewrite E in E'. apply app_inv_head in E'. subst tr'.
  rewrite Forall_forall in H. exact (H _ Hin).
Qed.

End MetricValue.

(* ------------------------------------------------------------------ *)
(** ** The cells after the sweep *)

Section AfterTheSweep.
Context {C : Collaborators}.

Lemma call_ok_fst {A} ev (impl : ExtState -> result A * ExtState) w a :
  fst (impl (ext w)) = Ok a ->
  call ev impl w = (Ok a, mkWorld (events w ++ [ev]) (snd (impl (ext w)))).
Proof.
  unfold call. destruct (impl (ext w)) as [[a'|e] s]; simpl; intros H;
    inversion H; reflexivity.
Qed.

Lemma index_of_missing c cols : ~ In c cols -> pd.index_of c cols = None.
Proof.
  induction cols as [|c' r IH]; simpl; intros H; [reflexivity|].
  destruct (String.eqb_spec c' c) as [Heq|_].
  - exfalso. apply H. left. exact Heq.
  - rewrite IH; [reflexivity|]. intros Hin. apply H. right. exact Hin.
Qed.

Lemma getitem_missing df c :
  ~ In c (columns df) -> pd.getitem df c = Raise (KeyError c).
Proof.
  intros H. unfold pd.getitem. rewrite (index_of_missing _ _ H). reflexivity.
Qed.

Ltac run_step :=
  cbv beta;
  repeat match goal with H : _ = Ok _ |- _ => rewrite H end;
  first
    [ reflexivity
    | apply call_ok; eassumption
    | apply call_ok_fst; solve [auto]
    | eapply eq_trans; [eapply bind_ok; run_step | run_step] ].

(** X9.  When [clean_sweeper_df] returns a frame with three index levels
    and the columns "rank" and "duration", and plotting and gluing do
    not raise, the cells after the sweep run to the end.  All of them
    work on the cleaned frame: the bar plot gets "rank" of
    [mean(level=(1,2))], [plot_sweeper_df] gets [mean(level=(1))] sorted
    by "rank", and four values are glued, in this order: the number of
    rows, the "rank" of [mean(level=(1))] as a list, the largest and the
    smallest duration. *)
Theorem post_process_on_cleaned_frame (df : DataFrame) (w : World) df' s1 :
  ext_clean_sweeper_df df (ext w) = (Ok df', s1) ->
  nlevels df' = 3 ->
  In "rank" (columns df') ->
  In "duration" (columns df') ->
  (forall series s, fst (ext_plot_bar series s) = Ok tt) ->
  (forall d sort_by s, fst (ext_plot_sweeper_df d sort_by s) = Ok tt) ->
  (forall name v s, fst (ext_glue name v s) = Ok tt) ->
  exists m12 s12 m1 sr mx mn,
    pd.mean [1; 2] df' = Ok m12 /\
    pd.getitem m12 "rank" = Ok s12 /\
    pd.mean [1] df' = Ok m1 /\
    pd.getitem m1 "rank" = Ok sr /\
    pd.getattr (pd.max df') "duration" = Ok mx /\
    pd.getattr (pd.min df') "duration" = Ok mn /\
    fst (post_process df w) = Ok tt /\
    events (snd (post_process df w)) =
      events w ++
        [ EvCleanSweeperDf df;
          EvPlotBar s12;
          EvPlotSweeperDf m1 "rank";
          EvGlue "nr_elements" (GInt (pd.len df'));
          EvGlue "ranks" (GList (pd.to_list sr));
          EvGlue "max_duration" (GFloat mx);
          EvGlue "min_duration" (GFloat mn) ].
Proof.
  intros Hclean Hn Hr Hd Hplot Hplots Hglue.
  destruct (@FrameFacts.aggregations_ok df' Hn Hr Hd)
    as (m12 & s12 & m1 & sr & mx & mn &
        E12 & _ & Es12 & E1 & _ & Esr & Emx & Emn).
  exists m12, s12, m1, sr, mx, mn.
  do 6 (split; [assumption|]).
  assert (H : exists w',
             post_process df w = (Ok tt, w') /\
             events w' =
               events w ++
                 [ EvCleanSweeperDf df; EvPlotBar s12;
                   EvPlotSweeperDf m1 "rank";
                   EvGlue "nr_elements" (GInt (pd.len df'));
                   EvGlue "ranks" (GList (pd.to_list sr));
                   EvGlue "max_duration" (GFloat mx);
                   EvGlue "min_duration" (GFloat mn) ]).
  { eexists. split.
    - unfold post_process, cell_7, cell_8, cell_9, cell_10, cell_11, cell_12,
        clean_sweeper_df, plot_bar, plot_sweeper_df, glue.
      run_step.
    - cbn [events]. rewrite <- !app_assoc. reflexivity. }
  destruct H as (w' & -> & Hev). split; [reflexivity | exact Hev].
Qed.

(** X10.  If the cleaned frame has no column "rank" (three index levels
    as before), the notebook stops in cell 9 with KeyError "rank": cell 8
    has passed, nothing is plotted and nothing is glued. *)
Theorem post_process_without_rank_column (df : DataFrame) (w : World) df' s1 :
  ext_clean_sweeper_df df (ext w) = (Ok df', s1) ->
  nlevels df' = 3 ->
  ~ In "rank" (columns df') ->
  post_process df w =
  (Raise (KeyError "rank"),
   mkWorld (events w ++ [EvCleanSweeperDf df; EvRaised (KeyError "rank")]) s1).
Proof.
  intros Hclean Hn Hr.
  destruct (@FrameFacts.mean_ok [1; 2] df') as (m12 & E12 & _ & C12).
  { lia. }
  { discriminate. }
  { rewrite Hn. repeat constructor. }
  assert (Eg : pd.getitem m12 "rank" = Raise (KeyError "rank")).
  { apply getitem_missing. rewrite C12. exact Hr. }
  unfold post_process, cell_7, cell_8, cell_9, clean_sweeper_df.
  erewrite bind_ok; [|apply call_ok; exact Hclean].
  rewrite E12. cbn [lift]. rewrite bind_ret_l.
  erewrite bind_raise; [reflexivity|].
  rewrite bind_ret_l, Eg. cbn [lift]. rewrite bind_raise_l.
  unfold raise. cbn [events ext]. rewrite <- app_assoc. reflexivity.
Qed.

(** X11.  If the cleaned frame has fewer than three index levels, the
    notebook stops in cell 8, before any plot or glue:
    [df.mean(level=(1,2))] raises IndexError on an index of two levels,
    and ValueError on a plain index. *)
Theorem post_process_with_too_few_levels (df : DataFrame) (w : World) df' s1 :
  ext_clean_sweeper_df df (ext w) = (Ok df', s1) ->
  nlevels df' < 3 ->
  let e :=
    if Nat.eqb (nlevels df') 2 then IndexError
    else ValueError "multiple levels only valid with MultiIndex" in
  post_process df w =
  (Raise e, mkWorld (events w ++ [EvCleanSweeperDf df; EvRaised e]) s1).
Proof.
  intros Hclean Hn e.
  assert (E12 : pd.mean [1; 2] df' = Raise e).
  { unfold e. destruct (Nat.eqb_spec (nlevels df') 2) as [H2|H2].
    - apply FrameFacts.mean_too_many_levels; [lia|].
      apply Exists_cons_tl, Exists_cons_hd. lia.
    - apply FrameFacts.mean_plain_several. lia. }
  unfold post_process, cell_7, cell_8, clean_sweeper_df.
  erewrite bind_ok; [|apply call_ok; exact Hclean].
  rewrite E12. cbn [lift]. rewrite bind_raise_l.
  unfold raise. cbn [events ext]. rewrite <- app_assoc. reflexivity.
Qed.

End AfterTheSweep.

(* ------------------------------------------------------------------ *)
(** ** The notebook from its first cell: failures and completion *)

Section WholeNotebook.
Context {C : Collaborators}.

(** X12.  Whatever [sweeper.run] does, the parameter grid is built only
    after both datasets were obtained: if either [unzip_url] raises, the
    notebook stops there and [update_parameters] is never called. *)
Theorem grid_built_only_after_both_datasets
    (run : ParameterSweeper -> list string -> nat ->
           (Learner -> M npfloat) -> M DataFrame)
    (w : World) tr kwargs :
  events (snd (notebook_with run w)) = events w ++ tr ->
  In (EvUpdateParameters kwargs) tr ->
  exists p1 s1 p2 s2,
    ext_unzip_url Urls_fridge_objects_path true (ext w) = (Ok p1, s1) /\
    ext_unzip_url Urls_fridge_objects_watermark_path true s1 = (Ok p2, s2).
Proof.
  intros E Hin.
  destruct (ext_unzip_url Urls_fridge_objects_path true (ext w))
    as [[p1|e] s1] eqn:E1.
  2:{ exfalso. revert E.
      unfold notebook_with, cell_3, unzip_url.
      erewrite bind_raise;
        [|erewrite bind_raise; [reflexivity | apply call_raise; exact E1]].
      cbn [snd events]. intros E. apply app_inv_head in E. subst tr.
      destruct Hin as [H|[H|[]]]; discriminate H. }
  destruct (ext_unzip_url Urls_fridge_objects_watermark_path true s1)
    as [[p2|e] s2] eqn:E2.
  2:{ exfalso. revert E.
      unfold notebook_with, cell_3, unzip_url.
      erewrite bind_raise.
      2:{ erewrite bind_ok; [|apply call_ok; exact E1].
          erewrite bind_raise; [reflexivity | apply call_raise; exact E2]. }
      cbn [snd events]. rewrite <- app_assoc.
      intros E. apply app_inv_head in E. subst tr.
      destruct Hin as [H|[H|[H|[]]]]; discriminate H. }
  exists p1, s1, p2, s2. split; [reflexivity | exact E2].
Qed.

Lemma for_list_head_raise {X Y} (x : X) r (body : X -> M Y) w e w' :
  body x w = (Raise e, w') -> for_list (x :: r) body w = (Raise e, w').
Proof. intros H. simpl. erewrite bind_raise; [reflexivity | exact H]. Qed.

(** X13.  With the sweep as the spec describes it: when the first
    training ends with an exception (as when the user interrupts it), the
    notebook has printed the one progress line that cell 6 recorded, has
    evaluated no metric and post-processed nothing, and ends with that
    exception. *)
Theorem first_training_interrupted (w : World) p1 s1 p2 s2 e s3 :
  ext_unzip_url Urls_fridge_objects_path true (ext w) = (Ok p1, s1) ->
  ext_unzip_url Urls_fridge_objects_watermark_path true s1 = (Ok p2, s2) ->
  ext_learn p1 (nth 0 notebook_grid []) s2 = (Raise e, s3) ->
  fst (notebook w) = Raise e /\
  ext (snd (notebook w)) = s3 /\
  events (snd (notebook w)) =
    events w ++
      [ EvUnzipUrl Urls_fridge_objects_path true;
        EvUnzipUrl Urls_fridge_objects_watermark_path true;
        EvUpdateParameters cell_6_kwargs;
        EvPrint cell_6_recorded_stdout;
        EvLearn p1 (nth 0 notebook_grid []);
        EvRaised e ].
Proof.
  intros E1 E2 El.
  assert (Hg : permutations (updated (ParameterSweeper_init "rank") cell_6_kwargs)
               = nth 0 notebook_grid [] :: tl notebook_grid) by reflexivity.
  assert (H : exists w',
             notebook w = (Raise e, w') /\ ext w' = s3 /\
             events w' =
               events w ++
                 [ EvUnzipUrl Urls_fridge_objects_path true;
                   EvUnzipUrl Urls_fridge_objects_watermark_path true;
                   EvUpdateParameters cell_6_kwargs;
                   EvPrint cell_6_recorded_stdout;
                   EvLearn p1 (nth 0 notebook_grid []);
                   EvRaised e ]).
  { eexists. split; [|split].
    - unfold notebook, notebook_with, cell_3, cell_5, unzip_url.
      erewrite bind_ok.
      2:{ erewrite bind_ok; [|apply call_ok; exact E1].
          erewrite bind_ok; [|apply call_ok; exact E2].
          reflexivity. }
      rewrite bind_ret_l.
      erewrite bind_raise; [reflexivity|].
      unfold cell_6_with, update_parameters.
      erewrite bind_ok; [|reflexivity].
      erewrite bind_raise; [reflexivity|].
      unfold ParameterSweeper_run.
      erewrite bind_raise; [reflexivity|].
      change (seq 0 REPS) with (0 :: seq 1 2).
      apply for_list_head_raise.
      rewrite Hg. cbn [length seq combine].
      apply for_list_head_raise. cbv beta iota.
      erewrite bind_ok; [|reflexivity].
      apply for_list_head_raise.
      erewrite bind_raise; [reflexivity|].
      apply call_raise. cbn [ext]. exact El.
    - reflexivity.
    - cbn [events ext]. rewrite <- !app_assoc. reflexivity. }
  destruct H as (w' & -> & Hs & Hev). auto.
Qed.

(** *** Completion *)

Lemma ensures_conseq {A} (m : M A) (R R' : A -> Prop) :
  ensures m R -> (forall a, R a -> R' a) -> ensures m R'.
Proof.
  intros Hm HR w. destruct (Hm w) as (a & w' & E & H). eauto.
Qed.

Lemma ensures_ret {A} (a : A) (R : A -> Prop) : R a -> ensures (ret a) R.
Proof. intros H w. exists a, w. auto. Qed.

Lemma ensures_log ev : ensures (log ev) (fun _ => True).
Proof. intros w. eexists _, _. split; [reflexivity | exact I]. Qed.

Lemma ensures_call {A} ev (impl : ExtState -> result A * ExtState)
    (R : A -> Prop) :
  (forall s, exists a s', impl s = (Ok a, s') /\ R a) ->
  ensures (call ev impl) R.
Proof.
  intros H w. destruct (H (ext w)) as (a & s' & E & Ha).
  exists a. eexists. split; [apply call_ok; exact E | exact Ha].
Qed.

Lemma ensures_lift {A} (r : result A) a (R : A -> Prop) :
  r = Ok a -> R a -> ensures (lift r) R.
Proof. intros -> H. apply ensures_ret, H. Qed.

Lemma ensures_bind {A B} (m : M A) (k : A -> M B) (R1 : A -> Prop)
    (R2 : B -> Prop) :
  ensures m R1 -> (forall a, R1 a -> ensures (k a) R2) ->
  ensures (bind m k) R2.
Proof.
  intros Hm Hk w. destruct (Hm w) as (a & w1 & E & Ha).
  destruct (Hk a Ha w1) as (b & w2 & E2 & Hb).
  exists b, w2. split; [|exact Hb].
  erewrite bind_ok; [exact E2 | exact E].
Qed.

Lemma ensures_for_each {X} (xs : list X) body :
  (forall x, ensures (body x) (fun _ => True)) ->
  ensures (for_each xs body) (fun _ => True).
Proof.
  intros Hb. induction xs as [|x r IH]; simpl.
  - apply ensures_ret. exact I.
  - eapply ensures_bind; [apply Hb|]. intros _ _. exact IH.
Qed.

Lemma ensures_for_list {X Y} (xs : list X) (body : X -> M Y) :
  (forall x, ensures (body x) (fun _ => True)) ->
  ensures (for_list xs body) (fun _ => True).
Proof.
  intros Hb. induction xs as [|x r IH]; simpl.
  - apply ensures_ret. exact I.
  - eapply ensures_bind; [apply Hb|]. intros y _.
    eapply ensures_bind; [exact IH|]. intros ys _.
    apply ensures_ret. exact I.
Qed.

Lemma retrieval_rank_completes learn :
  reliable -> good_learner learn ->
  ensures (retrieval_rank learn) (fun _ => True).
Proof.
  intros Hrel [[layer Hl] Hf]. unfold retrieval_rank.
  eapply ensures_bind with (R1 := fun _ => True).
  { unfold comparative_set_builder. apply ensures_call. intros s.
    destruct (builder_returns Hrel (valid_ds (learn_data learn)) 1000 99 s)
      as (sets & s' & E). eauto. }
  intros sets _. rewrite Hl. unfold index at 1. rewrite bind_ret_l.
  eapply ensures_bind
    with (R1 := fun features => exists first,
                  py_getitem (values features) 0 = Some first /\
                  length first = 512).
  { unfold compute_features_learner. apply ensures_call. intros s.
    destruct (Hf layer s) as (features & first & s' & E & E1 & E2). eauto 6. }
  intros features (first & E1 & E2).
  rewrite E1. unfold index. rewrite bind_ret_l.
  rewrite E2, Nat.eqb_refl. unfold assert. rewrite bind_ret_l.
  eapply ensures_bind with (R1 := fun _ => True).
  { apply ensures_for_each. intros cs. unfold compute_distances.
    apply ensures_call. intros s.
    destruct (distances_return Hrel cs features s) as (s' & E). eauto. }
  intros _ _.
  eapply ensures_bind with (R1 := fun _ => True).
  { unfold positive_image_ranks. apply ensures_call. intros s.
    destruct (ranks_return Hrel sets s) as (ranks & s' & E). eauto. }
  intros ranks _. apply ensures_ret. exact I.
Qed.

Lemma run_completes sw datasets reps :
  reliable ->
  ensures (ParameterSweeper_run sw datasets reps retrieval_rank)
          (fun df => nlevels df = 3 /\
                     columns df = [metric_name sw; "duration"]).
Proof.
  intros Hrel. unfold ParameterSweeper_run.
  eapply ensures_bind with (R1 := fun _ => True).
  2:{ intros res _. apply ensures_ret. split; reflexivity. }
  apply ensures_for_list. intros rep.
  apply ensures_for_list. intros [i perm].
  eapply ensures_bind; [apply ensures_log|]. intros _ _.
  apply ensures_for_list. intros dataset.
  eapply ensures_bind
    with (R1 := fun t : Learner * npfloat => good_learner (fst t)).
  { apply ensures_call. intros s.
    destruct (learn_returns Hrel dataset perm s)
      as (learn & duration & s' & E & Hg).
    exists (learn, duration), s'. auto. }
  intros [learn duration] Hg. simpl in Hg.
  eapply ensures_bind; [apply ensures_log|]. intros _ _.
  eapply ensures_bind; [apply (retrieval_rank_completes Hrel Hg)|].
  intros metric _. apply ensures_ret. exact I.
Qed.

Lemma post_process_completes df :
  reliable ->
  nlevels df = 3 -> columns df = ["rank"; "duration"] ->
  ensures (post_process df) (fun _ => True).
Proof.
  intros Hrel Hn Hc.
  unfold post_process, cell_7, cell_8, cell_9, cell_10, cell_11, cell_12,
    clean_sweeper_df, plot_bar, plot_sweeper_df, glue.
  eapply ensures_bind
    with (R1 := fun df' => nlevels df' = 3 /\
                           columns df' = ["rank"; "duration"]).
  { apply ensures_call. intros s.
    destruct (clean_returns Hrel df s) as (df' & s' & E & En & Ec).
    exists df', s'. split; [exact E|]. split; congruence. }
  intros df' [Hn' Hc'].
  destruct (@FrameFacts.aggregations_ok df' Hn')
    as (m12 & s12 & m1 & sr & mx & mn &
        E12 & _ & Es12 & E1 & _ & Esr & Emx & Emn).
  { rewrite Hc'. left. reflexivity. }
  { rewrite Hc'. right. left. reflexivity. }
  assert (Hglue : forall name v, ensures (call (EvGlue name v) (ext_glue name v))
                                         (fun _ => True)).
  { intros name v. apply ensures_call. intros s.
    destruct (glue_returns Hrel name v s) as (s' & E). eauto. }
  assert (Hbar : forall series,
             ensures (call (EvPlotBar series) (ext_plot_bar series))
                     (fun _ => True)).
  { intros series. apply ensures_call. intros s.
    destruct (plot_bar_returns Hrel series s) as (s' & E). eauto. }
  assert (Hplot : forall d sort_by,
             ensures (call (EvPlotSweeperDf d sort_by)
                           (ext_plot_sweeper_df d sort_by))
                     (fun _ => True)).
  { intros d sort_by. apply ensures_call. intros s.
    destruct (plot_sweeper_df_returns Hrel d sort_by s) as (s' & E). eauto. }
  rewrite E12, E1, Emx, Emn. cbn [lift].
  rewrite !bind_ret_l. rewrite Es12. cbn [lift]. rewrite !bind_ret_l.
  rewrite Esr. cbn [lift]. rewrite !bind_ret_l.
  repeat first
    [ apply Hglue
    | apply Hbar
    | apply Hplot
    | apply ensures_ret; exact I
    | eapply ensures_bind with (R1 := fun _ => True); [|intros ? _] ].
Qed.

Lemma notebook_completes : reliable -> ensures notebook (fun _ => True).
Proof.
  intros Hrel. unfold notebook, notebook_with, cell_3, cell_5, unzip_url.
  assert (Hunzip : forall url, ensures (call (EvUnzipUrl url true)
                                             (ext_unzip_url url true))
                                       (fun _ => True)).
  { intros url. apply ensures_call. intros s.
    destruct (unzip_url_returns Hrel url true s) as (p & s' & E). eauto. }
  eapply ensures_bind with (R1 := fun _ => True).
  { eapply ensures_bind; [apply Hunzip|]. intros p1 _.
    eapply ensures_bind; [apply Hunzip|]. intros p2 _.
    apply ensures_ret. exact I. }
  intros paths _. rewrite bind_ret_l.
  eapply ensures_bind
    with (R1 := fun df => nlevels df = 3 /\ columns df = ["rank"; "duration"]).
  { unfold cell_6_with, update_parameters.
    eapply ensures_bind with (R1 := fun sw => metric_name sw = "rank").
    { eapply ensures_bind; [apply ensures_log|]. intros _ _.
      apply ensures_ret. reflexivity. }
    intros sw Hsw.
    eapply ensures_bind; [apply (run_completes sw paths REPS Hrel)|].
    intros df [Hn Hc]. apply ensures_ret. rewrite Hsw in Hc. auto. }
  intros df [Hn Hc]. apply post_process_completes; assumption.
Qed.

(** X14.  With collaborators that never raise, train learners the metric
    works on, and keep the shape of the frame when cleaning it, the
    notebook (the sweep as the spec describes it) runs to the end from
    any state, and goes through the whole pipeline: two datasets, the
    grid, 3 x 6 x 2 trainings each followed by its evaluation, and the
    seven post-processing calls. *)
Theorem notebook_runs_to_completion (w : World) :
  reliable ->
  fst (notebook w) = Ok tt /\
  exists p1 p2 tr,
    events (snd (notebook w)) = events w ++ tr /\
    steps tr =
      [ LoadDataset Urls_fridge_objects_path;
        LoadDataset Urls_fridge_objects_watermark_path;
        BuildGrid cell_6_kwargs ] ++
      sweep_steps notebook_grid [p1; p2] REPS ++ post_steps.
Proof.
  intros Hrel.
  destruct (notebook_completes Hrel w) as ([] & w' & E & _).
  assert (Hok : fst (notebook w) = Ok tt) by (rewrite E; reflexivity).
  split; [exact Hok|].
  destruct (notebook_returns w Hok)
    as (p1 & s1 & p2 & s2 & tr & df & _ & _ & Etr & Hs & _).
  exists p1, p2, tr. auto.
Qed.

End WholeNotebook.

(* ------------------------------------------------------------------ *)
(** ** These statements at work on the small collaborators *)

Lemma retrieval_rank_without_embedding_layer_witness :
  fst (@retrieval_rank Demo.working Faulty.headless
         (Demo.start Demo.working 0)) = Raise IndexError.
Proof.
  rewrite (@retrieval_rank_without_embedding_layer Demo.working
             Faulty.headless (Demo.start Demo.working 0) [0; 1; 2] 1);
    reflexivity.
Defined.

Lemma retrieval_rank_on_no_features_witness :
  fst (@retrieval_rank Demo.working Faulty.no_images
         (Demo.start Demo.working 0)) = Raise IndexError.
Proof.
  rewrite (@retrieval_rank_on_no_features Demo.working
             Faulty.no_images (Demo.start Demo.working 0) [0; 1; 2] 1 2 2);
    reflexivity.
Defined.

Lemma retrieval_rank_stops_at_failing_set_witness :
  fst (@retrieval_rank (Faulty.collaborators 1 (fun df => df))
         (Demo.a_learner 512)
         (Demo.start (Faulty.collaborators 1 (fun df => df)) 0))
  = Raise (LibraryError "RuntimeError").
Proof.
  rewrite (@retrieval_rank_stops_at_failing_set
             (Faulty.collaborators 1 (fun df => df))
             (Demo.a_learner 512)
             (Demo.start (Faulty.collaborators 1 (fun df => df)) 0)
             [0] 1 [2] 1 2
             [("a.jpg", repeat (0 # 1)%Q 512); ("b.jpg", repeat (0 # 1)%Q 7)]
             (repeat (0 # 1)%Q 512) 2 3 (LibraryError "RuntimeError") 3);
    reflexivity.
Defined.

Lemma retrieval_rank_returns_only_the_median_witness :
  exists sets ranks s3 s4,
    @ext_positive_image_ranks Demo.working sets s3 = (Ok ranks, s4) /\
    Fin (3 # 1) = np.median ranks.
Proof.
  destruct (@retrieval_rank_returns_only_the_median Demo.working
              (Demo.a_learner 512) (Demo.start Demo.working 0) (Fin (3 # 1)))
    as (sets & s1 & layer & features & first & s2 & s3 & ranks & s4 &
        _ & _ & _ & _ & _ & _ & Hr & Hm).
  - vm_compute. reflexivity.
  - exists sets, ranks, s3, s4. split; assumption.
Defined.

Lemma build_sets_contract ds n k s sets s' :
  Demo.build_sets ds n k s = (Ok sets, s') -> 0 < n -> sets <> [].
Proof.
  unfold Demo.build_sets. intros H Hn.
  assert (Hs : sets = map (fun i => s + i) (seq 0 (Nat.min n 3)))
    by congruence.
  intros ->. symmetry in Hs. apply map_eq_nil in Hs.
  apply (f_equal (@length nat)) in Hs. rewrite length_seq in Hs.
  cbn [length] in Hs. lia.
Qed.

Lemma ranks_contract sets s ranks s' :
  Demo.ranks sets s = (Ok ranks, s') ->
  length ranks = length sets /\ Forall (fun r => (1 <= r <= 5)%Z) ranks.
Proof.
  unfold Demo.ranks. intros H.
  assert (Hr : ranks = map (fun cs => Z.of_nat (S ((7 * cs) mod 5))) sets)
    by congruence.
  rewrite Hr. split; [apply length_map|].
  apply Forall_forall. intros r Hin. apply in_map_iff in Hin.
  destruct Hin as (cs & Hcs & _).
  assert (Hlt : (7 * cs) mod 5 < 5) by (apply Nat.mod_upper_bound; discriminate).
  rewrite <- Hcs. lia.
Qed.

Lemma retrieval_rank_within_rank_range_witness :
  exists q,
    fst (@retrieval_rank Demo.working (Demo.a_learner 512)
           (Demo.start Demo.working 0)) = Ok (Fin q) /\
    (inject_Z 1 <= q)%Q /\ (q <= inject_Z 5)%Q.
Proof.
  destruct (@retrieval_rank_within_rank_range Demo.working 1 5
              (Demo.a_learner 512) (Demo.start Demo.working 0)
              (Fin (inject_Z 3)))
    as (q & Hq & Hlo & Hhi).
  - exact build_sets_contract.
  - exact ranks_contract.
  - vm_compute. reflexivity.
  - exists q. split; [|split; assumption].
    rewrite <- Hq. vm_compute. reflexivity.
Defined.

Lemma distances_only_on_checked_features_witness :
  exists first,
    py_getitem
      (values [("a.jpg", repeat (0 # 1)%Q 512); ("b.jpg", repeat (0 # 1)%Q 7)])
      0 = Some first /\
    length first = 512.
Proof.
  eapply (@distances_only_on_checked_features Demo.working
            (Demo.a_learner 512) (Demo.start Demo.working 0) _ 0).
  - vm_compute. reflexivity.
  - right. right. left. reflexivity.
Defined.

Lemma post_process_on_cleaned_frame_witness :
  fst (@post_process Demo.working Faulty.one_row (Demo.start Demo.working 0))
  = Ok tt.
Proof.
  destruct (@post_process_on_cleaned_frame Demo.working Faulty.one_row
              (Demo.start Demo.working 0) Faulty.one_row 0)
    as (m12 & s12 & m1 & sr & mx & mn & _ & _ & _ & _ & _ & _ & H & _).
  - reflexivity.
  - reflexivity.
  - left. reflexivity.
  - right. left. reflexivity.
  - intros. reflexivity.
  - intros. reflexivity.
  - intros. reflexivity.
  - exact H.
Defined.

Lemma post_process_without_rank_column_witness :
  fst (@post_process (Faulty.collaborators 99 Faulty.rename_metric)
         Faulty.one_row
         (Demo.start (Faulty.collaborators 99 Faulty.rename_metric) 0))
  = Raise (KeyError "rank").
Proof.
  rewrite (@post_process_without_rank_column
             (Faulty.collaborators 99 Faulty.rename_metric) Faulty.one_row
             (Demo.start (Faulty.collaborators 99 Faulty.rename_metric) 0)
             (Faulty.rename_metric Faulty.one_row) 0).
  - reflexivity.
  - reflexivity.
  - reflexivity.
  - simpl. intros [H|[H|[]]]; discriminate H.
Defined.

Lemma post_process_with_too_few_levels_witness :
  fst (@post_process (Faulty.collaborators 99 Faulty.drop_level)
         Faulty.one_row
         (Demo.start (Faulty.collaborators 99 Faulty.drop_level) 0))
  = Raise IndexError /\
  fst (@post_process (Faulty.collaborators 99 Faulty.keep_dataset_level)
         Faulty.one_row
         (Demo.start (Faulty.collaborators 99 Faulty.keep_dataset_level) 0))
  = Raise (ValueError "multiple levels only valid with MultiIndex").
Proof.
  split.
  - rewrite (@post_process_with_too_few_levels
               (Faulty.collaborators 99 Faulty.drop_level) Faulty.one_row
               (Demo.start (Faulty.collaborators 99 Faulty.drop_level) 0)
               (Faulty.drop_level Faulty.one_row) 0).
    + reflexivity.
    + reflexivity.
    + simpl. lia.
  - rewrite (@post_process_with_too_few_levels
               (Faulty.collaborators 99 Faulty.keep_dataset_level)
               Faulty.one_row
               (Demo.start (Faulty.collaborators 99 Faulty.keep_dataset_level) 0)
               (Faulty.keep_dataset_level Faulty.one_row) 0).
    + reflexivity.
    + reflexivity.
    + simpl. lia.
Defined.

Lemma grid_built_only_after_both_datasets_witness :
  exists p1 s1 p2 s2,
    @ext_unzip_url Demo.interrupted "fridgeObjects.zip" true 0 = (Ok p1, s1) /\
    @ext_unzip_url Demo.interrupted "fridgeObjectsWatermark.zip" true s1
      = (Ok p2, s2).
Proof.
  eapply (@grid_built_only_after_both_datasets Demo.interrupted
            ParameterSweeper_run (Demo.start Demo.interrupted 0) _
            cell_6_kwargs).
  - vm_compute. reflexivity.
  - right. right. left. reflexivity.
Defined.

Lemma first_training_interrupted_witness :
  fst (@notebook Demo.interrupted (Demo.start Demo.interrupted 0))
    = Raise KeyboardInterrupt /\
  exists perm,
    events (snd (@notebook Demo.interrupted (Demo.start Demo.interrupted 0))) =
      [ EvUnzipUrl "fridgeObjects.zip" true;
        EvUnzipUrl "fridgeObjectsWatermark.zip" true;
        EvUpdateParameters cell_6_kwargs;
        EvPrint "Running 1 of 6 permutations. Repeat 1 of 3.";
        EvLearn "data/fridgeObjects.zip" perm;
        EvRaised KeyboardInterrupt ].
Proof.
  destruct (@first_training_interrupted Demo.interrupted
              (Demo.start Demo.interrupted 0)
              "data/fridgeObjects.zip" 1 "data/fridgeObjectsWatermark.zip" 2
              KeyboardInterrupt 2 eq_refl eq_refl eq_refl)
    as (Hr & _ & Hev).
  split; [exact Hr|].
  eexists. exact Hev.
Defined.

Lemma working_collaborators_reliable : @reliable Demo.working.
Proof.
  constructor; intros; simpl; eauto.
  - unfold Demo.build_sets. eauto.
  - unfold Demo.ranks. eauto.
  - eexists _, _, _. split; [reflexivity|]. split.
    + exists 2. reflexivity.
    + intros layer s0. simpl.
      eexists _, _, _. split; [reflexivity|]. split; reflexivity.
Qed.

Lemma notebook_runs_to_completion_witness :
  fst (@notebook Demo.working (Demo.start Demo.working 0)) = Ok tt.
Proof.
  apply (@notebook_runs_to_completion Demo.working
           (Demo.start Demo.working 0) working_collaborators_reliable).
Defined.

Lemma penultimate_layer_is_last_but_one_witness :
  @penultimate_layer Demo.working (Demo.a_learner 512) = Some 2.
Proof.
  apply (proj2 (@penultimate_layer_is_last_but_one Demo.working
                  (Demo.a_learner 512) 2)).
  exists [0], [1; 2; 3], [], [1], 3. split; reflexivity.
Defined.
